(** * SAML response verification and trust-anchor extraction

    A shallow embedding of package [saml]: the document model, [Verify]
    and [GetEntityIDCertificateAndRedirectURL], followed by the properties
    of the two operations.

    The package calls five library functions (encoding/base64,
    encoding/xml, github.com/ucarion/dsig, crypto/x509, net/url).  They are
    not part of the package; they are taken as an interface ([Libraries])
    with the Go signatures, and every call to one of them is recorded in a
    trace, so that the order of the calls and the arguments they were given
    can be stated. *)

From Stdlib Require Import Strings.String Strings.Ascii Strings.Byte Lists.List ZArith Bool Lia.
Import ListNotations.
Local Open Scope string_scope.
Local Open Scope list_scope.

(** ** time.Time

    An instant is a number of seconds and of nanoseconds within the second;
    [Before] and [After] are the comparisons of package time on instants
    without a monotonic clock reading (a [Time] read from XML has none). *)
Module time.

Record Time : Type := { sec : Z; nsec : Z }.

(** The zero value of the type. *)
Definition zero : Time := {| sec := 0; nsec := 0 |}.

(** [func (t Time) After(u Time) bool]:
    [ts > us || ts == us && t.nsec() > u.nsec()]. *)
Definition After (t u : Time) : bool :=
  (sec t >? sec u)%Z || ((sec t =? sec u)%Z && (nsec t >? nsec u)%Z).

(** [func (t Time) Before(u Time) bool]:
    [ts < us || ts == us && t.nsec() < u.nsec()]. *)
Definition Before (t u : Time) : bool :=
  (sec t <? sec u)%Z || ((sec t =? sec u)%Z && (nsec t <? nsec u)%Z).

End time.

(** ** encoding/xml names and decoders *)
Module xml.

(** [type Name struct { Space, Local string }] *)
Record Name : Type := { Space : string; Local : string }.

Definition Name_zero : Name := {| Space := EmptyString; Local := EmptyString |}.

(** A decoder is known here by the bytes its reader delivers. *)
Record Decoder : Type := { input : list byte }.

(** [xml.NewDecoder(bytes.NewReader(data))] *)
Definition NewDecoder (data : list byte) : Decoder := {| input := data |}.

End xml.

(** ** Types of the libraries the package only passes around *)
Class External : Type := {
  (** crypto/x509.Certificate *)
  Certificate : Type;
  (** net/url.URL *)
  URL : Type;
  (** the fields of dsig.Signature other than SignatureValue *)
  SignedInfo : Type;
  SignedInfo_zero : SignedInfo
}.

(** ** The error values

    The five package-level sentinels, and the errors handed through
    unchanged from the libraries, tagged with the library they come from
    and carrying its message. *)
Inductive error : Type :=
| ErrResponseNotSigned
| ErrAssertionExpired
| ErrInvalidIssuer
| ErrInvalidRecipient
| ErrNoRedirectBinding
| Base64Error (msg : string)
| XMLError (msg : string)
| DsigError (msg : string)
| X509Error (msg : string)
| URLError (msg : string).

Section DocumentModel.

Context {E : External}.

(** dsig.Signature, as far as the package looks into it. *)
Record Signature : Type := {
  Signature_SignedInfo : SignedInfo;
  SignatureValue : string
}.

Record Issuer : Type := {
  Issuer_XMLName : xml.Name;
  Issuer_Name : string
}.

Record NameID : Type := {
  NameID_XMLName : xml.Name;
  NameID_Format : string;
  NameID_Value : string
}.

Record SubjectConfirmationData : Type := {
  SubjectConfirmationData_XMLName : xml.Name;
  SubjectConfirmationData_NotOnOrAfter : time.Time;
  SubjectConfirmationData_Recipient : string
}.

Record SubjectConfirmation : Type := {
  SubjectConfirmation_XMLName : xml.Name;
  SubjectConfirmation_SubjectConfirmationData : SubjectConfirmationData
}.

Record Subject : Type := {
  Subject_XMLName : xml.Name;
  Subject_NameID : NameID;
  Subject_SubjectConfirmation : SubjectConfirmation
}.

Record Conditions : Type := {
  Conditions_XMLName : xml.Name;
  Conditions_NotBefore : time.Time;
  Conditions_NotOnOrAfter : time.Time
}.

Record Attribute : Type := {
  Attribute_XMLName : xml.Name;
  Attribute_Name : string;
  Attribute_NameFormat : string;
  Attribute_Value : string
}.

Record AttributeStatement : Type := {
  AttributeStatement_XMLName : xml.Name;
  AttributeStatement_Attributes : list Attribute
}.

Record Assertion : Type := {
  Assertion_XMLName : xml.Name;
  Assertion_Issuer : Issuer;
  Assertion_Subject : Subject;
  Assertion_Conditions : Conditions;
  Assertion_AttributeStatement : AttributeStatement
}.

Record Response : Type := {
  Response_XMLName : xml.Name;
  Response_Signature : Signature;
  Response_Assertion : Assertion
}.

(** [Response{}]: every field at the zero value of its type. *)
Definition Assertion_zero : Assertion :=
  {| Assertion_XMLName := xml.Name_zero;
     Assertion_Issuer :=
       {| Issuer_XMLName := xml.Name_zero; Issuer_Name := EmptyString |};
     Assertion_Subject :=
       {| Subject_XMLName := xml.Name_zero;
          Subject_NameID :=
            {| NameID_XMLName := xml.Name_zero;
               NameID_Format := EmptyString; NameID_Value := EmptyString |};
          Subject_SubjectConfirmation :=
            {| SubjectConfirmation_XMLName := xml.Name_zero;
               SubjectConfirmation_SubjectConfirmationData :=
                 {| SubjectConfirmationData_XMLName := xml.Name_zero;
                    SubjectConfirmationData_NotOnOrAfter := time.zero;
                    SubjectConfirmationData_Recipient := EmptyString |} |} |};
     Assertion_Conditions :=
       {| Conditions_XMLName := xml.Name_zero;
          Conditions_NotBefore := time.zero;
          Conditions_NotOnOrAfter := time.zero |};
     Assertion_AttributeStatement :=
       {| AttributeStatement_XMLName := xml.Name_zero;
          AttributeStatement_Attributes := [] |} |}.

Definition Signature_zero : Signature :=
  {| Signature_SignedInfo := SignedInfo_zero; SignatureValue := EmptyString |}.

Definition Response_zero : Response :=
  {| Response_XMLName := xml.Name_zero;
     Response_Signature := Signature_zero;
     Response_Assertion := Assertion_zero |}.

(** *** Metadata *)

Record X509Certificate : Type := {
  X509Certificate_XMLName : xml.Name;
  X509Certificate_Value : string
}.

Record X509Data : Type := {
  X509Data_XMLName : xml.Name;
  X509Data_X509Certificate : X509Certificate
}.

Record KeyInfo : Type := {
  KeyInfo_XMLName : xml.Name;
  KeyInfo_X509Data : X509Data
}.

Record KeyDescriptor : Type := {
  KeyDescriptor_XMLName : xml.Name;
  KeyDescriptor_KeyInfo : KeyInfo
}.

Record SingleSignOnService : Type := {
  SingleSignOnService_XMLName : xml.Name;
  Binding : string;
  Location : string
}.

Record IDPSSODescriptor : Type := {
  IDPSSODescriptor_XMLName : xml.Name;
  IDPSSODescriptor_KeyDescriptor : KeyDescriptor;
  SingleSignOnServices : list SingleSignOnService
}.

Record EntityDescriptor : Type := {
  EntityDescriptor_XMLName : xml.Name;
  EntityID : string;
  EntityDescriptor_IDPSSODescriptor : IDPSSODescriptor
}.

(** ** Calls to the libraries *)

(** One entry per call, with the arguments of the call. *)
Inductive Event : Type :=
| EvBase64Decode (s : string)
| EvXMLUnmarshal (data : list byte)
| EvSignatureVerify (sig : Signature) (cert : option Certificate)
                    (decoder : xml.Decoder)
| EvX509Parse (asn1Data : list byte)
| EvURLParse (rawurl : string).

Definition Trace : Type := list Event.

(** The library functions, with the result types they have in Go: a
    value and an error side by side ([None] for a nil error or a nil
    pointer), the error given by its message.  [xml_Unmarshal data v] is
    [xml.Unmarshal(data, &v)]: it gives the value [v] has after the call,
    also when the call fails.  [Signature_Verify sig cert decoder] is
    [sig.Verify(cert, decoder)], taken to leave [sig] as it is. *)
Class Libraries : Type := {
  base64_DecodeString : string -> list byte * option string;
  xml_Unmarshal : list byte -> Response -> Response * option string;
  Signature_Verify :
    Signature -> option Certificate -> xml.Decoder -> option string;
  x509_ParseCertificate : list byte -> option Certificate * option string;
  url_Parse : string -> option URL * option string
}.

End DocumentModel.

(** ** The trace monad *)
Section Monad.

Context {E : External}.

Definition M (A : Type) : Type := Trace -> A * Trace.

Definition ret {A : Type} (a : A) : M A := fun t => (a, t).

Definition bind {A B : Type} (m : M A) (k : A -> M B) : M B :=
  fun t => let (a, t') := m t in k a t'.

(** A library call: the event is appended, the result handed on. *)
Definition call {A : Type} (ev : Event) (result : A) : M A :=
  fun t => (result, t ++ [ev]).

Definition result {A : Type} (m : M A) (t : Trace) : A := fst (m t).
Definition trace {A : Type} (m : M A) (t : Trace) : Trace := snd (m t).

End Monad.

Declare Scope saml_scope.
Delimit Scope saml_scope with saml.

Notation "x <- m ;; k" := (bind m (fun x => k))
  (at level 61, m at next level, right associativity) : saml_scope.
Notation "' pat <- m ;; k" := (bind m (fun x => match x with pat => k end))
  (at level 61, pat pattern, m at next level, right associativity) : saml_scope.
(** [if cond { return r }] followed by the rest of the function. *)
Notation "'when' c 'return_' r ;; k" := (if c then ret r else k)
  (at level 61, c at level 200, r at level 200, right associativity) : saml_scope.

Definition isErr {A : Type} (err : option A) : bool :=
  match err with Some _ => true | None => false end.

Definition wrap (tag : string -> error) (err : option string) : option error :=
  option_map tag err.

(** [SingleSignOnServiceBindingHTTPRedirect] *)
Definition SingleSignOnServiceBindingHTTPRedirect : string :=
  "urn:oasis:names:tc:SAML:2.0:bindings:HTTP-Redirect".

Section Package.

Context {E : External} {L : Libraries}.

Local Open Scope saml_scope.

(** The library calls inside the monad. *)
Definition base64_StdEncoding_DecodeString (s : string)
  : M (list byte * option error) :=
  let (data, err) := base64_DecodeString s in
  call (EvBase64Decode s) (data, wrap Base64Error err).

Definition xml_Unmarshal_into (data : list byte) (v : Response)
  : M (Response * option error) :=
  let (v', err) := xml_Unmarshal data v in
  call (EvXMLUnmarshal data) (v', wrap XMLError err).

Definition Signature_Verify_with (sig : Signature)
    (cert : option Certificate) (decoder : xml.Decoder)
  : M (option error) :=
  call (EvSignatureVerify sig cert decoder)
       (wrap DsigError (Signature_Verify sig cert decoder)).

Definition x509_ParseCertificate_of (asn1Data : list byte)
  : M (option Certificate * option error) :=
  let (cert, err) := x509_ParseCertificate asn1Data in
  call (EvX509Parse asn1Data) (cert, wrap X509Error err).

Definition url_Parse_of (rawurl : string)
  : M (option URL * option error) :=
  let (u, err) := url_Parse rawurl in
  call (EvURLParse rawurl) (u, wrap URLError err).

(** ** Verify *)
Definition Verify (samlResponse issuer : string)
    (cert : option Certificate) (recipient : string) (now : time.Time)
  : M (Response * option error) :=
  '(data, err) <- base64_StdEncoding_DecodeString samlResponse ;;
  when isErr err return_ (Response_zero, err) ;;

  '(response, err) <- xml_Unmarshal_into data Response_zero ;;
  when isErr err return_ (Response_zero, err) ;;

  when SignatureValue (Response_Signature response) =? EmptyString
    return_ (Response_zero, Some ErrResponseNotSigned) ;;

  let decoder := xml.NewDecoder data in
  err <- Signature_Verify_with (Response_Signature response) cert decoder ;;
  when isErr err return_ (Response_zero, err) ;;

  when negb (Issuer_Name (Assertion_Issuer (Response_Assertion response))
             =? issuer)
    return_ (Response_zero, Some ErrInvalidIssuer) ;;

  when negb (SubjectConfirmationData_Recipient
               (SubjectConfirmation_SubjectConfirmationData
                  (Subject_SubjectConfirmation
                     (Assertion_Subject (Response_Assertion response))))
             =? recipient)
    return_ (Response_zero, Some ErrInvalidRecipient) ;;

  when time.Before now
         (Conditions_NotBefore
            (Assertion_Conditions (Response_Assertion response)))
    return_ (Response_zero, Some ErrAssertionExpired) ;;

  when time.After now
         (Conditions_NotOnOrAfter
            (Assertion_Conditions (Response_Assertion response)))
    return_ (Response_zero, Some ErrAssertionExpired) ;;

  when time.After now
         (SubjectConfirmationData_NotOnOrAfter
            (SubjectConfirmation_SubjectConfirmationData
               (Subject_SubjectConfirmation
                  (Assertion_Subject (Response_Assertion response)))))
    return_ (Response_zero, Some ErrAssertionExpired) ;;

  ret (response, None).

(** ** GetEntityIDCertificateAndRedirectURL *)

(** The [for _, s := range d.IDPSSODescriptor.SingleSignOnServices] loop
    and the return that follows it. *)
Fixpoint range_SingleSignOnServices (d : EntityDescriptor)
    (cert : option Certificate) (services : list SingleSignOnService)
  : M (string * option Certificate * option URL * option error) :=
  match services with
  | [] => ret (EmptyString, None, None, Some ErrNoRedirectBinding)
  | s :: rest =>
      if Binding s =? SingleSignOnServiceBindingHTTPRedirect then
        '(location, err) <- url_Parse_of (Location s) ;;
        ret (EntityID d, cert, location, err)
      else range_SingleSignOnServices d cert rest
  end.

Definition GetEntityIDCertificateAndRedirectURL (d : EntityDescriptor)
  : M (string * option Certificate * option URL * option error) :=
  '(asn1Data, err) <- base64_StdEncoding_DecodeString
      (X509Certificate_Value
         (X509Data_X509Certificate
            (KeyInfo_X509Data
               (KeyDescriptor_KeyInfo
                  (IDPSSODescriptor_KeyDescriptor
                     (EntityDescriptor_IDPSSODescriptor d)))))) ;;
  when isErr err return_ (EmptyString, None, None, err) ;;

  '(cert, err) <- x509_ParseCertificate_of asn1Data ;;
  when isErr err return_ (EmptyString, None, None, err) ;;

  range_SingleSignOnServices d cert
    (SingleSignOnServices (EntityDescriptor_IDPSSODescriptor d)).

(** ** Vocabulary of the statements *)

(** The fields [Verify] compares. *)
Definition issuerOf (response : Response) : string :=
  Issuer_Name (Assertion_Issuer (Response_Assertion response)).

Definition confirmationData (response : Response) : SubjectConfirmationData :=
  SubjectConfirmation_SubjectConfirmationData
    (Subject_SubjectConfirmation
       (Assertion_Subject (Response_Assertion response))).

Definition conditions (response : Response) : Conditions :=
  Assertion_Conditions (Response_Assertion response).

Definition certificateValue (d : EntityDescriptor) : string :=
  X509Certificate_Value
    (X509Data_X509Certificate
       (KeyInfo_X509Data
          (KeyDescriptor_KeyInfo
             (IDPSSODescriptor_KeyDescriptor
                (EntityDescriptor_IDPSSODescriptor d))))).

Definition services (d : EntityDescriptor) : list SingleSignOnService :=
  SingleSignOnServices (EntityDescriptor_IDPSSODescriptor d).

(** [s] is well-formed base64 for [data]. *)
Definition decodes_to (s : string) (data : list byte) : Prop :=
  base64_DecodeString s = (data, None).

(** [data] unmarshals, without error, to [response]. *)
Definition unmarshals_to (data : list byte) (response : Response) : Prop :=
  xml_Unmarshal data Response_zero = (response, None).

(** The input gets through decoding, parsing and both signature steps. *)
Definition authentic (s : string) (cert : option Certificate)
    (data : list byte) (response : Response) : Prop :=
  decodes_to s data /\
  unmarshals_to data response /\
  SignatureValue (Response_Signature response) <> EmptyString /\
  Signature_Verify (Response_Signature response) cert (xml.NewDecoder data)
  = None.

(** The entry is not an HTTP-Redirect binding. *)
Definition other_binding (s : SingleSignOnService) : Prop :=
  Binding s <> SingleSignOnServiceBindingHTTPRedirect.

(** The arguments of the calls to [Signature.Verify] in a trace, in the
    order of the calls. *)
Fixpoint signature_checks (t : Trace)
  : list (Signature * option Certificate * xml.Decoder) :=
  match t with
  | [] => []
  | EvSignatureVerify sig cert decoder :: t' =>
      (sig, cert, decoder) :: signature_checks t'
  | _ :: t' => signature_checks t'
  end.

End Package.

(** ** A reference instance of the libraries

    Stand-ins for the five libraries, enough to run the package on a few
    documents: base64 is decoded in full (standard alphabet, padding, line
    breaks skipped); for XML and for signatures the stand-in answers from a
    table of documents; a certificate is anything that starts with the tag
    of a DER SEQUENCE and a URL anything that does not start with a
    colon. *)
Module Fixture.

(** *** encoding/base64: StdEncoding.DecodeString *)

Definition isNewline (c : ascii) : bool :=
  let n := N_of_ascii c in ((n =? 10) || (n =? 13))%N.

Definition isPadding (c : ascii) : bool := (N_of_ascii c =? 61)%N.

Definition decodeChar (c : ascii) : option N :=
  let n := N_of_ascii c in
  (if (65 <=? n) && (n <=? 90) then Some (n - 65)
   else if (97 <=? n) && (n <=? 122) then Some (n - 71)
   else if (48 <=? n) && (n <=? 57) then Some (n + 4)
   else if n =? 43 then Some 62
   else if n =? 47 then Some 63
   else None)%N.

Definition toByte (n : N) : byte :=
  match Byte.of_N (n mod 256) with Some b => b | None => x00 end.

Definition isNil {A : Type} (l : list A) : bool :=
  match l with [] => true | _ :: _ => false end.

(** Four characters give three bytes; the last group may end in one or
    two padding characters. *)
Fixpoint decodeQuanta (l : list ascii) : option (list byte) :=
  match l with
  | [] => Some []
  | a :: b :: c :: d :: rest =>
      match decodeChar a, decodeChar b with
      | Some va, Some vb =>
          if isPadding c then
            if isPadding d && isNil rest
            then Some [toByte (va * 4 + vb / 16)]
            else None
          else
            match decodeChar c with
            | Some vc =>
                if isPadding d then
                  if isNil rest
                  then Some [toByte (va * 4 + vb / 16);
                             toByte (vb * 16 + vc / 4)]
                  else None
                else
                  match decodeChar d, decodeQuanta rest with
                  | Some vd, Some bytes =>
                      Some (toByte (va * 4 + vb / 16)
                            :: toByte (vb * 16 + vc / 4)
                            :: toByte (vc * 64 + vd) :: bytes)
                  | _, _ => None
                  end
            | None => None
            end
      | _, _ => None
      end
  | _ => None
  end%N.

Definition DecodeString (s : string) : list byte * option string :=
  match decodeQuanta
          (filter (fun c => negb (isNewline c)) (list_ascii_of_string s)) with
  | Some bytes => (bytes, None)
  | None => ([], Some "illegal base64 data")
  end.

(** *** The opaque types *)

#[export] Instance external : External :=
  {| Certificate := list byte;
     URL := string;
     SignedInfo := unit;
     SignedInfo_zero := tt |}.

(** *** Documents *)

Definition bytes (doc : string) : list byte := list_byte_of_string doc.

(** The assertion consumer service of the service provider. *)
Definition acs : string := "https://sp.example/acs".

Definition nsProtocol : string := "urn:oasis:names:tc:SAML:2.0:protocol".
Definition nsAssertion : string := "urn:oasis:names:tc:SAML:2.0:assertion".
Definition nsMetadata : string := "urn:oasis:names:tc:SAML:2.0:metadata".
Definition nsDsig : string := "http://www.w3.org/2000/09/xmldsig#".

Definition name (space local : string) : xml.Name :=
  {| xml.Space := space; xml.Local := local |}.

Definition seconds_after (t : time.Time) (seconds : Z) : time.Time :=
  {| time.sec := time.sec t + seconds; time.nsec := time.nsec t |}.

(** 2020-01-01T00:00:00Z and 2019-01-01T00:00:00Z, in seconds since
    January 1 of year 1. *)
Definition T0 : time.Time := {| time.sec := 63713433600; time.nsec := 0 |}.
Definition T2019 : time.Time := {| time.sec := 63681897600; time.nsec := 0 |}.

Definition doc_signed : string :=
  "<Response xmlns='urn:oasis:names:tc:SAML:2.0:protocol'><Signature xmlns='http://www.w3.org/2000/09/xmldsig#'><SignatureValue>c2lnLWlkcC1h</SignatureValue></Signature><Assertion xmlns='urn:oasis:names:tc:SAML:2.0:assertion'><Issuer>idp-a</Issuer><Subject><NameID>alice</NameID><SubjectConfirmation><SubjectConfirmationData NotOnOrAfter='2020-01-01T00:05:00Z' Recipient='https://sp.example/acs'/></SubjectConfirmation></Subject><Conditions NotBefore='2020-01-01T00:00:00Z' NotOnOrAfter='2020-01-01T00:05:00Z'/></Assertion></Response>".

Definition doc_signed_base64 : string :=
  "PFJlc3BvbnNlIHhtbG5zPSd1cm46b2FzaXM6bmFtZXM6dGM6U0FNTDoyLjA6cHJvdG9jb2wnPjxTaWduYXR1cmUgeG1sbnM9J2h0dHA6Ly93d3cudzMub3JnLzIwMDAvMDkveG1sZHNpZyMnPjxTaWduYXR1cmVWYWx1ZT5jMmxuTFdsa2NDMWg8L1NpZ25hdHVyZVZhbHVlPjwvU2lnbmF0dXJlPjxBc3NlcnRpb24geG1sbnM9J3VybjpvYXNpczpuYW1lczp0YzpTQU1MOjIuMDphc3NlcnRpb24nPjxJc3N1ZXI+aWRwLWE8L0lzc3Vlcj48U3ViamVjdD48TmFtZUlEPmFsaWNlPC9OYW1lSUQ+PFN1YmplY3RDb25maXJtYXRpb24+PFN1YmplY3RDb25maXJtYXRpb25EYXRhIE5vdE9uT3JBZnRlcj0nMjAyMC0wMS0wMVQwMDowNTowMFonIFJlY2lwaWVudD0naHR0cHM6Ly9zcC5leGFtcGxlL2FjcycvPjwvU3ViamVjdENvbmZpcm1hdGlvbj48L1N1YmplY3Q+PENvbmRpdGlvbnMgTm90QmVmb3JlPScyMDIwLTAxLTAxVDAwOjAwOjAwWicgTm90T25PckFmdGVyPScyMDIwLTAxLTAxVDAwOjA1OjAwWicvPjwvQXNzZXJ0aW9uPjwvUmVzcG9uc2U+".

Definition doc_forged : string :=
  "<Response xmlns='urn:oasis:names:tc:SAML:2.0:protocol'><Signature xmlns='http://www.w3.org/2000/09/xmldsig#'><SignatureValue>Zm9yZ2Vk</SignatureValue></Signature><Assertion xmlns='urn:oasis:names:tc:SAML:2.0:assertion'><Issuer>idp-evil</Issuer><Subject><NameID>mallory</NameID><SubjectConfirmation><SubjectConfirmationData NotOnOrAfter='2019-01-01T00:05:00Z' Recipient='https://other.example/acs'/></SubjectConfirmation></Subject><Conditions NotBefore='2019-01-01T00:00:00Z' NotOnOrAfter='2019-01-01T00:05:00Z'/></Assertion></Response>".

Definition doc_forged_base64 : string :=
  "PFJlc3BvbnNlIHhtbG5zPSd1cm46b2FzaXM6bmFtZXM6dGM6U0FNTDoyLjA6cHJvdG9jb2wnPjxTaWduYXR1cmUgeG1sbnM9J2h0dHA6Ly93d3cudzMub3JnLzIwMDAvMDkveG1sZHNpZyMnPjxTaWduYXR1cmVWYWx1ZT5abTl5WjJWazwvU2lnbmF0dXJlVmFsdWU+PC9TaWduYXR1cmU+PEFzc2VydGlvbiB4bWxucz0ndXJuOm9hc2lzOm5hbWVzOnRjOlNBTUw6Mi4wOmFzc2VydGlvbic+PElzc3Vlcj5pZHAtZXZpbDwvSXNzdWVyPjxTdWJqZWN0PjxOYW1lSUQ+bWFsbG9yeTwvTmFtZUlEPjxTdWJqZWN0Q29uZmlybWF0aW9uPjxTdWJqZWN0Q29uZmlybWF0aW9uRGF0YSBOb3RPbk9yQWZ0ZXI9JzIwMTktMDEtMDFUMDA6MDU6MDBaJyBSZWNpcGllbnQ9J2h0dHBzOi8vb3RoZXIuZXhhbXBsZS9hY3MnLz48L1N1YmplY3RDb25maXJtYXRpb24+PC9TdWJqZWN0PjxDb25kaXRpb25zIE5vdEJlZm9yZT0nMjAxOS0wMS0wMVQwMDowMDowMFonIE5vdE9uT3JBZnRlcj0nMjAxOS0wMS0wMVQwMDowNTowMFonLz48L0Fzc2VydGlvbj48L1Jlc3BvbnNlPg==".

Definition doc_unsigned : string :=
  "<Response xmlns='urn:oasis:names:tc:SAML:2.0:protocol'></Response>".

Definition doc_unsigned_base64 : string :=
  "PFJlc3BvbnNlIHhtbG5zPSd1cm46b2FzaXM6bmFtZXM6dGM6U0FNTDoyLjA6cHJvdG9jb2wnPjwvUmVzcG9uc2U+".

Definition doc_no_assertion : string :=
  "<Response xmlns='urn:oasis:names:tc:SAML:2.0:protocol'><Signature xmlns='http://www.w3.org/2000/09/xmldsig#'><SignatureValue>c2lnLWlkcC1h</SignatureValue></Signature></Response>".

Definition doc_no_assertion_base64 : string :=
  "PFJlc3BvbnNlIHhtbG5zPSd1cm46b2FzaXM6bmFtZXM6dGM6U0FNTDoyLjA6cHJvdG9jb2wnPjxTaWduYXR1cmUgeG1sbnM9J2h0dHA6Ly93d3cudzMub3JnLzIwMDAvMDkveG1sZHNpZyMnPjxTaWduYXR1cmVWYWx1ZT5jMmxuTFdsa2NDMWg8L1NpZ25hdHVyZVZhbHVlPjwvU2lnbmF0dXJlPjwvUmVzcG9uc2U+".

Definition doc_truncated : string :=
  "<Response xmlns='urn:oasis:names:tc:SAML:2.0:protocol'>".

Definition doc_truncated_base64 : string :=
  "PFJlc3BvbnNlIHhtbG5zPSd1cm46b2FzaXM6bmFtZXM6dGM6U0FNTDoyLjA6cHJvdG9jb2wnPg==".

(** What a document of the Response schema unmarshals to. *)
Definition mkResponse (signatureValue issuer nameID recipient : string)
    (notBefore notOnOrAfter confirmationNotOnOrAfter : time.Time)
  : Response :=
  {| Response_XMLName := name nsProtocol "Response";
     Response_Signature :=
       {| Signature_SignedInfo := tt; SignatureValue := signatureValue |};
     Response_Assertion :=
       {| Assertion_XMLName := name nsAssertion "Assertion";
          Assertion_Issuer :=
            {| Issuer_XMLName := name nsAssertion "Issuer";
               Issuer_Name := issuer |};
          Assertion_Subject :=
            {| Subject_XMLName := name nsAssertion "Subject";
               Subject_NameID :=
                 {| NameID_XMLName := name nsAssertion "NameID";
                    NameID_Format := EmptyString;
                    NameID_Value := nameID |};
               Subject_SubjectConfirmation :=
                 {| SubjectConfirmation_XMLName :=
                      name nsAssertion "SubjectConfirmation";
                    SubjectConfirmation_SubjectConfirmationData :=
                      {| SubjectConfirmationData_XMLName :=
                           name nsAssertion "SubjectConfirmationData";
                         SubjectConfirmationData_NotOnOrAfter :=
                           confirmationNotOnOrAfter;
                         SubjectConfirmationData_Recipient := recipient |}
                 |} |};
          Assertion_Conditions :=
            {| Conditions_XMLName := name nsAssertion "Conditions";
               Conditions_NotBefore := notBefore;
               Conditions_NotOnOrAfter := notOnOrAfter |};
          Assertion_AttributeStatement :=
            {| AttributeStatement_XMLName := xml.Name_zero;
               AttributeStatement_Attributes := [] |} |} |}.

Definition response_signed : Response :=
  mkResponse "c2lnLWlkcC1h" "idp-a" "alice" "https://sp.example/acs"
             T0 (seconds_after T0 300) (seconds_after T0 300).

Definition response_forged : Response :=
  mkResponse "Zm9yZ2Vk" "idp-evil" "mallory" "https://other.example/acs"
             T2019 (seconds_after T2019 300) (seconds_after T2019 300).

(** The root element alone: only its name is recorded. *)
Definition response_unsigned : Response :=
  {| Response_XMLName := name nsProtocol "Response";
     Response_Signature := Signature_zero;
     Response_Assertion := Assertion_zero |}.

(** A signed root element with no Assertion in it. *)
Definition response_no_assertion : Response :=
  {| Response_XMLName := name nsProtocol "Response";
     Response_Signature :=
       {| Signature_SignedInfo := tt; SignatureValue := "c2lnLWlkcC1h" |};
     Response_Assertion := Assertion_zero |}.

(** Each document with the value [xml.Unmarshal] leaves in a zero Response
    and the error it returns.  The document cut off after its start tag
    has its root name recorded before the end of input is met. *)
Definition documents : list (string * (Response * option string)) :=
  [ (doc_signed, (response_signed, None));
    (doc_forged, (response_forged, None));
    (doc_unsigned, (response_unsigned, None));
    (doc_no_assertion, (response_no_assertion, None));
    (doc_truncated,
     (response_unsigned,
      Some "XML syntax error on line 1: unexpected EOF")) ].

(** *** encoding/xml: Unmarshal into a Response *)
Definition Unmarshal (data : list byte) (v : Response)
  : Response * option string :=
  match find (fun d => fst d =? string_of_list_byte data) documents with
  | Some (_, outcome) => outcome
  | None => (v, Some "EOF")
  end.

(** *** dsig: the certificate of idp-a and what it signed *)
Definition idp_certificate : Certificate := [x30; x82; x01].

Definition signed : list (list byte * string * string) :=
  [ (idp_certificate, doc_signed, "c2lnLWlkcC1h");
    (idp_certificate, doc_no_assertion, "c2lnLWlkcC1h") ].

Definition VerifySignature (sig : Signature) (cert : option (list byte))
    (decoder : xml.Decoder) : option string :=
  match cert with
  | None => Some "dsig: no certificate"
  | Some c =>
      if existsb
           (fun e =>
              match e with
              | (c', doc, value) =>
                  (string_of_list_byte c' =? string_of_list_byte c)
                  && (doc =? string_of_list_byte (xml.input decoder))
                  && (value =? SignatureValue sig)
              end) signed
      then None
      else Some "dsig: signature does not verify"
  end.

(** *** crypto/x509: a certificate is a DER SEQUENCE *)
Definition ParseCertificate (asn1Data : list byte)
  : option (list byte) * option string :=
  match asn1Data with
  | x30 :: _ => (Some asn1Data, None)
  | _ => (None, Some "asn1: structure error: tags don't match")
  end.

(** *** net/url: a URL that starts with a colon has no scheme *)
Definition Parse (rawurl : string) : option string * option string :=
  match rawurl with
  | String ":" _ => (None, Some "parse: missing protocol scheme")
  | _ => (Some rawurl, None)
  end.

#[export] Instance libraries : Libraries :=
  {| base64_DecodeString := DecodeString;
     xml_Unmarshal := Unmarshal;
     Signature_Verify := VerifySignature;
     x509_ParseCertificate := ParseCertificate;
     url_Parse := Parse |}.

(** *** Metadata *)

Definition service (binding location : string) : SingleSignOnService :=
  {| SingleSignOnService_XMLName := name nsMetadata "SingleSignOnService";
     Binding := binding;
     Location := location |}.

Definition HTTPPost : string :=
  "urn:oasis:names:tc:SAML:2.0:bindings:HTTP-POST".

Definition mkEntityDescriptor (entityID certificate : string)
    (services : list SingleSignOnService) : EntityDescriptor :=
  {| EntityDescriptor_XMLName := name nsMetadata "EntityDescriptor";
     EntityID := entityID;
     EntityDescriptor_IDPSSODescriptor :=
       {| IDPSSODescriptor_XMLName := name nsMetadata "IDPSSODescriptor";
          IDPSSODescriptor_KeyDescriptor :=
            {| KeyDescriptor_XMLName := name nsMetadata "KeyDescriptor";
               KeyDescriptor_KeyInfo :=
                 {| KeyInfo_XMLName := name nsDsig "KeyInfo";
                    KeyInfo_X509Data :=
                      {| X509Data_XMLName := name nsDsig "X509Data";
                         X509Data_X509Certificate :=
                           {| X509Certificate_XMLName :=
                                name nsDsig "X509Certificate";
                              X509Certificate_Value := certificate |} |} |}
            |};
          SingleSignOnServices := services |} |}.

Definition metadata_idp_a : EntityDescriptor :=
  mkEntityDescriptor "idp-a" "MIIB"
    [ service HTTPPost "https://idp.example/post";
      service SingleSignOnServiceBindingHTTPRedirect "https://idp.example/sso";
      service SingleSignOnServiceBindingHTTPRedirect "https://idp.example/alt" ].

Definition metadata_post_only : EntityDescriptor :=
  mkEntityDescriptor "idp-a" "MIIB"
    [ service HTTPPost "https://idp.example/post" ].

Definition metadata_bad_base64 : EntityDescriptor :=
  mkEntityDescriptor "idp-a" "M!IB" [ service HTTPPost "https://idp.example/post" ].

Definition metadata_bad_der : EntityDescriptor :=
  mkEntityDescriptor "idp-a" "AAAA" [ service HTTPPost "https://idp.example/post" ].

Definition metadata_bad_url : EntityDescriptor :=
  mkEntityDescriptor "idp-a" "MIIB"
    [ service HTTPPost "https://idp.example/post";
      service SingleSignOnServiceBindingHTTPRedirect "://idp.example/sso" ].

End Fixture.

(** ** Order of instants

    The order [Before] and [After] decide: seconds first, then the
    nanoseconds within the second. *)
Module instant.

Definition lt (t u : time.Time) : Prop :=
  (time.sec t < time.sec u
   \/ (time.sec t = time.sec u /\ time.nsec t < time.nsec u))%Z.

(** [t] is not after [u]. *)
Definition le (t u : time.Time) : Prop := ~ lt u t.

End instant.

(** ** The entry the extractor stops at *)
Section FirstRedirect.

Context {E : External}.

(** The test of the loop body. *)
Definition isRedirect (s : SingleSignOnService) : bool :=
  Binding s =? SingleSignOnServiceBindingHTTPRedirect.

(** The first HTTP-Redirect entry of a descriptor, if it has one. *)
Definition firstRedirect (d : EntityDescriptor) : option SingleSignOnService :=
  find isRedirect (services d).

End FirstRedirect.

(** ** The hello-world service

    The program of the hello-world example: three variables of [main],
    set by the handler of /setup and read by the handler of /acs.  A
    handler is given the request and the variables; it gives what it does
    to its ResponseWriter, call by call, and the variables afterwards. *)
Module hello_world.

(** [err.Error()]: the text of the package errors, and the message of a
    library error. *)
Definition Error (e : error) : string :=
  match e with
  | ErrResponseNotSigned => "saml: response not signed"
  | ErrAssertionExpired => "saml: assertion expired"
  | ErrInvalidIssuer => "saml: invalid issuer"
  | ErrInvalidRecipient => "saml: invalid recipient"
  | ErrNoRedirectBinding => "saml: no HTTP redirect binding in IdP metadata"
  | Base64Error msg => msg
  | XMLError msg => msg
  | DsigError msg => msg
  | X509Error msg => msg
  | URLError msg => msg
  end.

(** [http.StatusBadRequest] *)
Definition StatusBadRequest : Z := 400.

Section Handlers.

Context {E : External} {L : Libraries}.

(** [var metadata saml.EntityDescriptor] before it is decoded into. *)
Definition EntityDescriptor_zero : EntityDescriptor :=
  {| EntityDescriptor_XMLName := xml.Name_zero;
     EntityID := EmptyString;
     EntityDescriptor_IDPSSODescriptor :=
       {| IDPSSODescriptor_XMLName := xml.Name_zero;
          IDPSSODescriptor_KeyDescriptor :=
            {| KeyDescriptor_XMLName := xml.Name_zero;
               KeyDescriptor_KeyInfo :=
                 {| KeyInfo_XMLName := xml.Name_zero;
                    KeyInfo_X509Data :=
                      {| X509Data_XMLName := xml.Name_zero;
                         X509Data_X509Certificate :=
                           {| X509Certificate_XMLName := xml.Name_zero;
                              X509Certificate_Value := EmptyString |} |} |}
            |};
          SingleSignOnServices := [] |} |}.

(** [xml.NewDecoder(r.Body).Decode(&metadata)]: the value [metadata] has
    after the call, and the error. *)
Class MetadataDecoder : Type := {
  xml_Decode : list byte -> EntityDescriptor -> EntityDescriptor * option string
}.

Context {D : MetadataDecoder}.

(** The variables [issuer], [cert] and [redirectURL] of [main]. *)
Record Vars : Type := {
  issuer : string;
  cert : option Certificate;
  redirectURL : option URL
}.

(** The variables when the program starts. *)
Definition Vars_zero : Vars :=
  {| issuer := EmptyString; cert := None; redirectURL := None |}.

(** What the handlers read of a request: the body, the error of
    [r.ParseForm()] and [r.FormValue]. *)
Record Request : Type := {
  Body : list byte;
  ParseForm : option string;
  FormValue : string -> string
}.

(** The calls on the ResponseWriter.  [Fprintf text] is
    [fmt.Fprintf(w, "%s", err)] with [text] the text of [err];
    [Encode assertion relay_state] is the JSON encoding of the map with
    the keys assertion and relay_state. *)
Inductive Write : Type :=
| WriteHeader (statusCode : Z)
| Fprintf (text : string)
| Header_Set (key value : string)
| Encode (assertion : Assertion) (relay_state : string).

Local Open Scope saml_scope.

(** The handler of /setup. *)
Definition setup (r : Request) (vars : Vars) : M (list Write * Vars) :=
  let (metadata, err) := xml_Decode (Body r) EntityDescriptor_zero in
  match err with
  | Some msg => ret ([WriteHeader StatusBadRequest; Fprintf msg], vars)
  | None =>
    '(inputIssuer, inputCert, inputRedirectURL, err) <-
       GetEntityIDCertificateAndRedirectURL metadata ;;
    match err with
    | Some e => ret ([WriteHeader StatusBadRequest; Fprintf (Error e)], vars)
    | None =>
      ret ([], {| issuer := inputIssuer;
                  cert := inputCert;
                  redirectURL := inputRedirectURL |})
    end
  end.

(** The handler of /acs; [now] is what [time.Now()] gives. *)
Definition acs (r : Request) (now : time.Time) (vars : Vars)
  : M (list Write) :=
  match ParseForm r with
  | Some msg => ret [WriteHeader StatusBadRequest; Fprintf msg]
  | None =>
    '(samlResponse, err) <-
       Verify (FormValue r "SAMLResponse") (issuer vars) (cert vars)
              "http://localhost:8080/acs" now ;;
    match err with
    | Some e => ret [WriteHeader StatusBadRequest; Fprintf (Error e)]
    | None =>
      ret [Header_Set "content-type" "application/json";
           Encode (Response_Assertion samlResponse)
                  (FormValue r "RelayState")]
    end
  end.

End Handlers.

End hello_world.

(** ** Stand-ins for the hello-world service

    The stand-ins of [Fixture], with a response addressed to the service
    and a table of metadata documents. *)
Module HelloFixture.

Definition doc_local : string :=
  "<Response xmlns='urn:oasis:names:tc:SAML:2.0:protocol'><Signature xmlns='http://www.w3.org/2000/09/xmldsig#'><SignatureValue>c2lnLWxvY2Fs</SignatureValue></Signature><Assertion xmlns='urn:oasis:names:tc:SAML:2.0:assertion'><Issuer>idp-a</Issuer><Subject><NameID>alice</NameID><SubjectConfirmation><SubjectConfirmationData NotOnOrAfter='2020-01-01T00:05:00Z' Recipient='http://localhost:8080/acs'/></SubjectConfirmation></Subject><Conditions NotBefore='2020-01-01T00:00:00Z' NotOnOrAfter='2020-01-01T00:05:00Z'/></Assertion></Response>".

Definition doc_local_base64 : string :=
  "PFJlc3BvbnNlIHhtbG5zPSd1cm46b2FzaXM6bmFtZXM6dGM6U0FNTDoyLjA6cHJvdG9jb2wnPjxTaWduYXR1cmUgeG1sbnM9J2h0dHA6Ly93d3cudzMub3JnLzIwMDAvMDkveG1sZHNpZyMnPjxTaWduYXR1cmVWYWx1ZT5jMmxuTFd4dlkyRnM8L1NpZ25hdHVyZVZhbHVlPjwvU2lnbmF0dXJlPjxBc3NlcnRpb24geG1sbnM9J3VybjpvYXNpczpuYW1lczp0YzpTQU1MOjIuMDphc3NlcnRpb24nPjxJc3N1ZXI+aWRwLWE8L0lzc3Vlcj48U3ViamVjdD48TmFtZUlEPmFsaWNlPC9OYW1lSUQ+PFN1YmplY3RDb25maXJtYXRpb24+PFN1YmplY3RDb25maXJtYXRpb25EYXRhIE5vdE9uT3JBZnRlcj0nMjAyMC0wMS0wMVQwMDowNTowMFonIFJlY2lwaWVudD0naHR0cDovL2xvY2FsaG9zdDo4MDgwL2FjcycvPjwvU3ViamVjdENvbmZpcm1hdGlvbj48L1N1YmplY3Q+PENvbmRpdGlvbnMgTm90QmVmb3JlPScyMDIwLTAxLTAxVDAwOjAwOjAwWicgTm90T25PckFmdGVyPScyMDIwLTAxLTAxVDAwOjA1OjAwWicvPjwvQXNzZXJ0aW9uPjwvUmVzcG9uc2U+".

Definition metadata_doc : string :=
  "<EntityDescriptor xmlns='urn:oasis:names:tc:SAML:2.0:metadata' entityID='idp-a'><IDPSSODescriptor><KeyDescriptor><KeyInfo xmlns='http://www.w3.org/2000/09/xmldsig#'><X509Data><X509Certificate>MIIB</X509Certificate></X509Data></KeyInfo></KeyDescriptor><SingleSignOnService Binding='urn:oasis:names:tc:SAML:2.0:bindings:HTTP-POST' Location='https://idp.example/post'/><SingleSignOnService Binding='urn:oasis:names:tc:SAML:2.0:bindings:HTTP-Redirect' Location='https://idp.example/sso'/><SingleSignOnService Binding='urn:oasis:names:tc:SAML:2.0:bindings:HTTP-Redirect' Location='https://idp.example/alt'/></IDPSSODescriptor></EntityDescriptor>".

Definition metadata_doc_bad_url : string :=
  "<EntityDescriptor xmlns='urn:oasis:names:tc:SAML:2.0:metadata' entityID='idp-a'><IDPSSODescriptor><KeyDescriptor><KeyInfo xmlns='http://www.w3.org/2000/09/xmldsig#'><X509Data><X509Certificate>MIIB</X509Certificate></X509Data></KeyInfo></KeyDescriptor><SingleSignOnService Binding='urn:oasis:names:tc:SAML:2.0:bindings:HTTP-POST' Location='https://idp.example/post'/><SingleSignOnService Binding='urn:oasis:names:tc:SAML:2.0:bindings:HTTP-Redirect' Location='://idp.example/sso'/></IDPSSODescriptor></EntityDescriptor>".

Definition response_local : Response :=
  Fixture.mkResponse "c2lnLWxvY2Fs" "idp-a" "alice"
    "http://localhost:8080/acs"
    Fixture.T0 (Fixture.seconds_after Fixture.T0 300)
    (Fixture.seconds_after Fixture.T0 300).

Definition Unmarshal (data : list byte) (v : Response)
  : Response * option string :=
  if doc_local =? string_of_list_byte data
  then (response_local, None)
  else Fixture.Unmarshal data v.

Definition VerifySignature (sig : Signature) (cert : option (list byte))
    (decoder : xml.Decoder) : option string :=
  match cert with
  | None => Some "dsig: no certificate"
  | Some c =>
      if (string_of_list_byte Fixture.idp_certificate
          =? string_of_list_byte c)
         && (doc_local =? string_of_list_byte (xml.input decoder))
         && ("c2lnLWxvY2Fs" =? SignatureValue sig)
      then None
      else Fixture.VerifySignature sig cert decoder
  end.

Definition libraries : Libraries :=
  {| base64_DecodeString := Fixture.DecodeString;
     xml_Unmarshal := Unmarshal;
     Signature_Verify := VerifySignature;
     x509_ParseCertificate := Fixture.ParseCertificate;
     url_Parse := Fixture.Parse |}.

Definition metadata_documents : list (string * EntityDescriptor) :=
  [ (metadata_doc, Fixture.metadata_idp_a);
    (metadata_doc_bad_url, Fixture.metadata_bad_url) ].

Definition Decode (data : list byte) (v : EntityDescriptor)
  : EntityDescriptor * option string :=
  match find (fun d => fst d =? string_of_list_byte data)
             metadata_documents with
  | Some (_, d) => (d, None)
  | None => (v, Some "EOF")
  end.

Definition decoder : hello_world.MetadataDecoder :=
  {| hello_world.xml_Decode := Decode |}.

(** Requests: a body for /setup, a form for /acs. *)
Definition upload (doc : string) : hello_world.Request :=
  {| hello_world.Body := list_byte_of_string doc;
     hello_world.ParseForm := None;
     hello_world.FormValue := fun _ => EmptyString |}.

Definition login (samlResponse relayState : string) : hello_world.Request :=
  {| hello_world.Body := [];
     hello_world.ParseForm := None;
     hello_world.FormValue :=
       fun key =>
         if key =? "SAMLResponse" then samlResponse
         else if key =? "RelayState" then relayState
         else EmptyString |}.

End HelloFixture.


(** * Properties *)

(** ** Instants *)

Lemma After_irrefl (t : time.Time) : time.After t t = false.
Proof.
  unfold time.After.
  rewrite Z.gtb_ltb, Z.ltb_irrefl, Z.eqb_refl, Z.gtb_ltb, Z.ltb_irrefl.
  reflexivity.
Qed.

Lemma Before_irrefl (t : time.Time) : time.Before t t = false.
Proof.
  unfold time.Before.
  rewrite !Z.ltb_irrefl, Z.eqb_refl.
  reflexivity.
Qed.

Section VerifyProperties.

Context {E : External} {L : Libraries}.

Lemma signature_checks_app (t u : Trace) :
  signature_checks (t ++ u) = signature_checks t ++ signature_checks u.
Proof.
  induction t as [|ev t IH]; [reflexivity|].
  destruct ev; cbn; rewrite IH; reflexivity.
Qed.

(** Unfolds [Verify] down to the library functions. *)
Ltac open_Verify :=
  unfold result, trace, Verify, bind, ret,
    base64_StdEncoding_DecodeString, xml_Unmarshal_into,
    Signature_Verify_with, call.

(** Rewrites with what is known of the library results. *)
Ltac feed H := rewrite H; cbn [isErr wrap option_map fst snd].

(** What [Verify] does up to the signature check, on an input that
    decodes and parses. *)
Lemma Verify_unsigned s issuer cert recipient now data response t :
  decodes_to s data ->
  unmarshals_to data response ->
  SignatureValue (Response_Signature response) = EmptyString ->
  Verify s issuer cert recipient now t
  = (Response_zero, Some ErrResponseNotSigned,
     t ++ [EvBase64Decode s] ++ [EvXMLUnmarshal data]).
Proof.
  intros Hdec Hxml Hsig. open_Verify.
  feed Hdec. feed Hxml. feed Hsig. cbn.
  rewrite <- app_assoc. reflexivity.
Qed.

Lemma Verify_signature_rejected s issuer cert recipient now data response
    msg t :
  decodes_to s data ->
  unmarshals_to data response ->
  SignatureValue (Response_Signature response) <> EmptyString ->
  Signature_Verify (Response_Signature response) cert (xml.NewDecoder data)
  = Some msg ->
  Verify s issuer cert recipient now t
  = (Response_zero, Some (DsigError msg),
     t ++ [EvBase64Decode s] ++ [EvXMLUnmarshal data]
       ++ [EvSignatureVerify (Response_Signature response) cert
             (xml.NewDecoder data)]).
Proof.
  intros Hdec Hxml Hsig Hver. open_Verify.
  feed Hdec. feed Hxml.
  apply String.eqb_neq in Hsig. feed Hsig. feed Hver.
  rewrite <- !app_assoc. reflexivity.
Qed.

(** Once the signature is accepted, the outcome is that of the five
    comparisons, in the order of the source. *)
Lemma Verify_authentic s issuer cert recipient now data response t :
  authentic s cert data response ->
  result (Verify s issuer cert recipient now) t
  = if negb (issuerOf response =? issuer)
    then (Response_zero, Some ErrInvalidIssuer)
    else if negb (SubjectConfirmationData_Recipient
                    (confirmationData response) =? recipient)
    then (Response_zero, Some ErrInvalidRecipient)
    else if time.Before now (Conditions_NotBefore (conditions response))
    then (Response_zero, Some ErrAssertionExpired)
    else if time.After now (Conditions_NotOnOrAfter (conditions response))
    then (Response_zero, Some ErrAssertionExpired)
    else if time.After now
              (SubjectConfirmationData_NotOnOrAfter
                 (confirmationData response))
    then (Response_zero, Some ErrAssertionExpired)
    else (response, None).
Proof.
  intros (Hdec & Hxml & Hsig & Hver). open_Verify.
  feed Hdec. feed Hxml.
  apply String.eqb_neq in Hsig. feed Hsig. feed Hver.
  unfold issuerOf, confirmationData, conditions.
  repeat match goal with
         | |- context [if ?c then _ else _] => destruct c
         end; reflexivity.
Qed.

(** C1. A response that carries a signature value which the signature
    check rejects gets the error of that check, whatever the expected
    issuer, the expected recipient and the time are: never
    ErrInvalidIssuer, ErrInvalidRecipient or ErrAssertionExpired. *)
Theorem Verify_signature_before_business_rules
    s issuer cert recipient now data response msg t :
  decodes_to s data ->
  unmarshals_to data response ->
  SignatureValue (Response_Signature response) <> EmptyString ->
  Signature_Verify (Response_Signature response) cert (xml.NewDecoder data)
  = Some msg ->
  result (Verify s issuer cert recipient now) t
  = (Response_zero, Some (DsigError msg))
  /\ snd (result (Verify s issuer cert recipient now) t)
     <> Some ErrInvalidIssuer
  /\ snd (result (Verify s issuer cert recipient now) t)
     <> Some ErrInvalidRecipient
  /\ snd (result (Verify s issuer cert recipient now) t)
     <> Some ErrAssertionExpired.
Proof.
  intros Hdec Hxml Hsig Hver. unfold result.
  rewrite (Verify_signature_rejected s issuer cert recipient now
             data response msg t Hdec Hxml Hsig Hver).
  cbn. repeat split; discriminate.
Qed.

(** C3. An input that decodes and parses but has an empty signature value
    gets ErrResponseNotSigned, whatever its other fields and the other
    arguments are, and Signature.Verify is not called. *)
Theorem Verify_response_not_signed
    s issuer cert recipient now data response t :
  decodes_to s data ->
  unmarshals_to data response ->
  SignatureValue (Response_Signature response) = EmptyString ->
  result (Verify s issuer cert recipient now) t
  = (Response_zero, Some ErrResponseNotSigned)
  /\ trace (Verify s issuer cert recipient now) t
     = t ++ [EvBase64Decode s] ++ [EvXMLUnmarshal data]
  /\ signature_checks (trace (Verify s issuer cert recipient now) t)
     = signature_checks t.
Proof.
  intros Hdec Hxml Hsig. unfold result, trace.
  rewrite (Verify_unsigned s issuer cert recipient now data response t
             Hdec Hxml Hsig).
  cbn [fst snd]. repeat split.
  rewrite !signature_checks_app. cbn. rewrite !app_nil_r. reflexivity.
Qed.


(** C5. Whenever [Verify] returns an error, the Response next to it is
    the zero Response. *)
Theorem Verify_error_zero_Response s issuer cert recipient now t :
  snd (result (Verify s issuer cert recipient now) t) <> None ->
  fst (result (Verify s issuer cert recipient now) t) = Response_zero.
Proof.
  open_Verify.
  destruct (base64_DecodeString s) as [data [e|]]; cbn; [reflexivity|].
  destruct (xml_Unmarshal data Response_zero) as [response [e|]];
    cbn; [reflexivity|].
  repeat match goal with
         | |- context [if ?c then _ else _] => destruct c
         end; cbn; try reflexivity.
  congruence.
Qed.

(** C7, as amended. When the input decodes and xml.Unmarshal reports an
    error on the decoded bytes, [Verify] returns that error and the zero
    Response, and Signature.Verify is not called. *)
Theorem Verify_unmarshal_error
    s issuer cert recipient now data partial msg t :
  decodes_to s data ->
  xml_Unmarshal data Response_zero = (partial, Some msg) ->
  result (Verify s issuer cert recipient now) t
  = (Response_zero, Some (XMLError msg))
  /\ signature_checks (trace (Verify s issuer cert recipient now) t)
     = signature_checks t.
Proof.
  intros Hdec Hxml. open_Verify. feed Hdec. feed Hxml.
  split; [reflexivity|].
  rewrite !signature_checks_app. cbn. rewrite !app_nil_r. reflexivity.
Qed.

End VerifyProperties.

(** ** The validity window *)
Section ValidityWindow.

Context {E : External} {L : Libraries}.

Variables (s issuer : string) (cert : option Certificate)
          (recipient : string) (data : list byte) (response : Response).

Hypothesis Hauthentic : authentic s cert data response.
Hypothesis Hissuer : issuerOf response = issuer.
Hypothesis Hrecipient :
  SubjectConfirmationData_Recipient (confirmationData response) = recipient.

Let notBefore := Conditions_NotBefore (conditions response).
Let notOnOrAfter := Conditions_NotOnOrAfter (conditions response).
Let confirmationNotOnOrAfter :=
  SubjectConfirmationData_NotOnOrAfter (confirmationData response).

(** With issuer and recipient as expected, only the three comparisons of
    instants are left. *)
Lemma Verify_window now t :
  result (Verify s issuer cert recipient now) t
  = if time.Before now notBefore
       || time.After now notOnOrAfter
       || time.After now confirmationNotOnOrAfter
    then (Response_zero, Some ErrAssertionExpired)
    else (response, None).
Proof.
  rewrite (Verify_authentic s issuer cert recipient now data response t
             Hauthentic).
  apply String.eqb_eq in Hissuer. apply String.eqb_eq in Hrecipient.
  rewrite Hissuer, Hrecipient. cbn [negb].
  subst notBefore notOnOrAfter confirmationNotOnOrAfter.
  destruct (time.Before _ _), (time.After _ _), (time.After _ _);
    reflexivity.
Qed.

(** The lower bound is inclusive: at NotBefore the response is accepted,
    if neither upper bound is passed. *)
Lemma Verify_at_NotBefore t :
  time.After notBefore notOnOrAfter = false ->
  time.After notBefore confirmationNotOnOrAfter = false ->
  result (Verify s issuer cert recipient notBefore) t = (response, None).
Proof.
  intros H1 H2. rewrite Verify_window, Before_irrefl, H1, H2. reflexivity.
Qed.

(** The upper bounds are compared with [After]: at Conditions.NotOnOrAfter
    the response is still accepted. *)
Lemma Verify_at_Conditions_NotOnOrAfter t :
  time.Before notOnOrAfter notBefore = false ->
  time.After notOnOrAfter confirmationNotOnOrAfter = false ->
  result (Verify s issuer cert recipient notOnOrAfter) t = (response, None).
Proof.
  intros H1 H2. rewrite Verify_window, After_irrefl, H1, H2. reflexivity.
Qed.

(** Likewise at SubjectConfirmationData.NotOnOrAfter. *)
Lemma Verify_at_SubjectConfirmationData_NotOnOrAfter t :
  time.Before confirmationNotOnOrAfter notBefore = false ->
  time.After confirmationNotOnOrAfter notOnOrAfter = false ->
  result (Verify s issuer cert recipient confirmationNotOnOrAfter) t
  = (response, None).
Proof.
  intros H1 H2. rewrite Verify_window, After_irrefl, H1, H2. reflexivity.
Qed.

(** Past either upper bound the response is expired. *)
Lemma Verify_after_NotOnOrAfter now t :
  time.After now notOnOrAfter = true
  \/ time.After now confirmationNotOnOrAfter = true ->
  result (Verify s issuer cert recipient now) t
  = (Response_zero, Some ErrAssertionExpired).
Proof.
  intros [H|H]; rewrite Verify_window, H;
    rewrite ?orb_true_r; reflexivity.
Qed.

End ValidityWindow.

(** ** The metadata extractor *)
Section ExtractorProperties.

Context {E : External} {L : Libraries}.

Ltac open_extractor :=
  unfold result, trace, GetEntityIDCertificateAndRedirectURL, bind, ret,
    base64_StdEncoding_DecodeString, x509_ParseCertificate_of, call,
    decodes_to, certificateValue, services in *.

Ltac feed H := rewrite H; cbn [isErr wrap option_map fst snd].

(** The loop skips the entries with another binding. *)
Lemma range_skip d cert pre rest t :
  Forall other_binding pre ->
  range_SingleSignOnServices d cert (pre ++ rest) t
  = range_SingleSignOnServices d cert rest t.
Proof.
  induction 1 as [|x pre Hx _ IH]; [reflexivity|].
  cbn. apply String.eqb_neq in Hx. rewrite Hx. exact IH.
Qed.

Lemma range_no_redirect d cert l t :
  Forall other_binding l ->
  range_SingleSignOnServices d cert l t
  = (EmptyString, None, None, Some ErrNoRedirectBinding, t).
Proof.
  intros H. rewrite <- (app_nil_r l), (range_skip d cert l [] t H).
  reflexivity.
Qed.

Lemma range_first_redirect d cert pre s post t :
  Forall other_binding pre ->
  Binding s = SingleSignOnServiceBindingHTTPRedirect ->
  range_SingleSignOnServices d cert (pre ++ s :: post) t
  = (EntityID d, cert, fst (url_Parse (Location s)),
     wrap URLError (snd (url_Parse (Location s))),
     t ++ [EvURLParse (Location s)]).
Proof.
  intros Hpre Hs. rewrite (range_skip d cert pre (s :: post) t Hpre).
  cbn. apply String.eqb_eq in Hs. rewrite Hs.
  unfold bind, url_Parse_of, call, ret.
  destruct (url_Parse (Location s)) as [u e]. reflexivity.
Qed.

(** After the certificate, the extractor is the loop. *)
Lemma extractor_certificate_ok d asn1Data cert t :
  decodes_to (certificateValue d) asn1Data ->
  x509_ParseCertificate asn1Data = (cert, None) ->
  GetEntityIDCertificateAndRedirectURL d t
  = range_SingleSignOnServices d cert (services d)
      (t ++ [EvBase64Decode (certificateValue d)] ++ [EvX509Parse asn1Data]).
Proof.
  intros Hdec Hcert. open_extractor. feed Hdec. feed Hcert.
  rewrite <- app_assoc. reflexivity.
Qed.

(** C6. With a certificate that decodes and parses: when no entry has the
    HTTP-Redirect binding, the result is ErrNoRedirectBinding, with empty
    values and no URL parsed; when some entry has it, the first such entry
    is taken, wherever it stands in the list, and the result is the
    EntityID, the certificate, and what url.Parse gives for the location of
    that entry. *)
Theorem extractor_binding_selection d asn1Data cert t :
  decodes_to (certificateValue d) asn1Data ->
  x509_ParseCertificate asn1Data = (cert, None) ->
  (Forall other_binding (services d) ->
   result (GetEntityIDCertificateAndRedirectURL d) t
   = (EmptyString, None, None, Some ErrNoRedirectBinding)
   /\ trace (GetEntityIDCertificateAndRedirectURL d) t
      = t ++ [EvBase64Decode (certificateValue d)] ++ [EvX509Parse asn1Data])
  /\
  (forall pre s post,
     services d = pre ++ s :: post ->
     Forall other_binding pre ->
     Binding s = SingleSignOnServiceBindingHTTPRedirect ->
     result (GetEntityIDCertificateAndRedirectURL d) t
     = (EntityID d, cert, fst (url_Parse (Location s)),
        wrap URLError (snd (url_Parse (Location s))))).
Proof.
  intros Hdec Hcert. unfold result, trace.
  rewrite (extractor_certificate_ok d asn1Data cert t Hdec Hcert).
  split.
  - intros Hnone. rewrite (range_no_redirect d cert _ _ Hnone).
    split; reflexivity.
  - intros pre s post Hlist Hpre Hs.
    rewrite Hlist, (range_first_redirect d cert pre s post _ Hpre Hs).
    reflexivity.
Qed.

(** C8. The certificate comes before the bindings: a certificate value
    that is not base64 gives the error of the decoder, and decoded bytes
    that are not a certificate give the error of x509.ParseCertificate,
    whatever the list of SingleSignOnService entries holds; no URL is
    parsed in either case. *)
Theorem extractor_certificate_before_binding d t :
  (forall partial msg,
     base64_DecodeString (certificateValue d) = (partial, Some msg) ->
     result (GetEntityIDCertificateAndRedirectURL d) t
     = (EmptyString, None, None, Some (Base64Error msg))
     /\ trace (GetEntityIDCertificateAndRedirectURL d) t
        = t ++ [EvBase64Decode (certificateValue d)])
  /\
  (forall asn1Data cert msg,
     decodes_to (certificateValue d) asn1Data ->
     x509_ParseCertificate asn1Data = (cert, Some msg) ->
     result (GetEntityIDCertificateAndRedirectURL d) t
     = (EmptyString, None, None, Some (X509Error msg))
     /\ trace (GetEntityIDCertificateAndRedirectURL d) t
        = t ++ [EvBase64Decode (certificateValue d)]
            ++ [EvX509Parse asn1Data]).
Proof.
  split.
  - intros partial msg Hdec. open_extractor. feed Hdec.
    split; reflexivity.
  - intros asn1Data cert msg Hdec Hcert. open_extractor.
    feed Hdec. feed Hcert. rewrite <- app_assoc.
    split; reflexivity.
Qed.

(** C10. When the location of the first HTTP-Redirect entry does not parse
    as a URL, the error comes with the EntityID of the descriptor and the
    parsed certificate, not with the empty values of the other failures. *)
Theorem extractor_url_error_keeps_values
    d asn1Data cert pre s post location msg t :
  decodes_to (certificateValue d) asn1Data ->
  x509_ParseCertificate asn1Data = (cert, None) ->
  services d = pre ++ s :: post ->
  Forall other_binding pre ->
  Binding s = SingleSignOnServiceBindingHTTPRedirect ->
  url_Parse (Location s) = (location, Some msg) ->
  result (GetEntityIDCertificateAndRedirectURL d) t
  = (EntityID d, cert, location, Some (URLError msg))
  /\ (EntityID d <> EmptyString ->
      fst (fst (fst (result (GetEntityIDCertificateAndRedirectURL d) t)))
      <> EmptyString).
Proof.
  intros Hdec Hcert Hlist Hpre Hs Hurl. unfold result.
  rewrite (extractor_certificate_ok d asn1Data cert t Hdec Hcert).
  rewrite Hlist, (range_first_redirect d cert pre s post _ Hpre Hs), Hurl.
  cbn. split; [reflexivity | exact (fun H => H)].
Qed.

End ExtractorProperties.

(** ** No state besides the arguments *)
Section Purity.

Context {E : External} {L : Libraries}.





End Purity.

(** * The package on the reference documents *)

Import Fixture.

(** The scenario of a login: signed by idp-a, valid for five minutes from
    [T0], verified one minute in. *)
Example Verify_round_trip :
  result (Verify doc_signed_base64 "idp-a" (Some idp_certificate) acs
            (seconds_after T0 60)) []
  = (response_signed, None)
  /\ NameID_Value
       (Subject_NameID
          (Assertion_Subject (Response_Assertion response_signed)))
     = "alice".
Proof. split; vm_compute; reflexivity. Qed.

Example Verify_other_issuer :
  result (Verify doc_signed_base64 "idp-b" (Some idp_certificate) acs
            (seconds_after T0 60)) []
  = (Response_zero, Some ErrInvalidIssuer).
Proof. vm_compute. reflexivity. Qed.

Example Verify_other_recipient :
  result (Verify doc_signed_base64 "idp-a" (Some idp_certificate)
            "https://elsewhere.example/acs" (seconds_after T0 60)) []
  = (Response_zero, Some ErrInvalidRecipient).
Proof. vm_compute. reflexivity. Qed.

Example Verify_six_minutes_later :
  result (Verify doc_signed_base64 "idp-a" (Some idp_certificate) acs
            (seconds_after T0 360)) []
  = (Response_zero, Some ErrAssertionExpired).
Proof. vm_compute. reflexivity. Qed.

Example Verify_one_second_early :
  result (Verify doc_signed_base64 "idp-a" (Some idp_certificate) acs
            (seconds_after T0 (-1))) []
  = (Response_zero, Some ErrAssertionExpired).
Proof. vm_compute. reflexivity. Qed.

Example Verify_not_base64 :
  result (Verify "<Response/>" "idp-a" (Some idp_certificate) acs T0) []
  = (Response_zero, Some (Base64Error "illegal base64 data")).
Proof. vm_compute. reflexivity. Qed.

Lemma doc_signed_authentic :
  authentic doc_signed_base64 (Some idp_certificate) (bytes doc_signed)
            response_signed.
Proof.
  repeat split; try (vm_compute; reflexivity).
  vm_compute. discriminate.
Defined.

(** The window of the signed document opens at [T0], inclusive. *)
Example Verify_at_T0 :
  result (Verify doc_signed_base64 "idp-a" (Some idp_certificate) acs T0) []
  = (response_signed, None).
Proof.
  apply (Verify_at_NotBefore doc_signed_base64 "idp-a"
           (Some idp_certificate) acs (bytes doc_signed) response_signed
           doc_signed_authentic);
    reflexivity.
Qed.

(** C1, on the forged document: another issuer, another recipient, a
    window long past, and a signature that does not verify. *)
Lemma Verify_signature_before_business_rules_witness :
  issuerOf response_forged <> "idp-a"
  /\ result (Verify doc_forged_base64 "idp-a" (Some idp_certificate) acs
               (seconds_after T0 60)) []
     = (Response_zero, Some (DsigError "dsig: signature does not verify")).
Proof.
  split; [vm_compute; discriminate|].
  apply (Verify_signature_before_business_rules
           doc_forged_base64 "idp-a" (Some idp_certificate) acs
           (seconds_after T0 60) (bytes doc_forged) response_forged
           "dsig: signature does not verify" []).
  - vm_compute. reflexivity.
  - vm_compute. reflexivity.
  - vm_compute. discriminate.
  - vm_compute. reflexivity.
Defined.

(** C2. At the instant NotOnOrAfter, of the Conditions and of the
    SubjectConfirmationData alike, [Verify] accepts the signed document. *)
Theorem Verify_accepts_at_NotOnOrAfter :
  Conditions_NotOnOrAfter (conditions response_signed) = seconds_after T0 300
  /\ SubjectConfirmationData_NotOnOrAfter (confirmationData response_signed)
     = seconds_after T0 300
  /\ result (Verify doc_signed_base64 "idp-a" (Some idp_certificate) acs
               (seconds_after T0 300)) []
     = (response_signed, None).
Proof. repeat split; vm_compute; reflexivity. Qed.

(** C3, on the document that is a root element and nothing else. *)
Lemma Verify_response_not_signed_witness :
  result (Verify doc_unsigned_base64 "idp-a" (Some idp_certificate) acs
            (seconds_after T0 60)) []
  = (Response_zero, Some ErrResponseNotSigned)
  /\ trace (Verify doc_unsigned_base64 "idp-a" (Some idp_certificate) acs
              (seconds_after T0 60)) []
     = [EvBase64Decode doc_unsigned_base64;
        EvXMLUnmarshal (bytes doc_unsigned)]
  /\ signature_checks
       (trace (Verify doc_unsigned_base64 "idp-a" (Some idp_certificate) acs
                 (seconds_after T0 60)) [])
     = [].
Proof.
  apply (Verify_response_not_signed
           doc_unsigned_base64 "idp-a" (Some idp_certificate) acs
           (seconds_after T0 60) (bytes doc_unsigned) response_unsigned []).
  - vm_compute. reflexivity.
  - vm_compute. reflexivity.
  - vm_compute. reflexivity.
Defined.


(** C5, on the document cut off after the start tag, of which
    xml.Unmarshal has recorded the root name when it fails. *)
Lemma Verify_error_zero_Response_witness :
  fst (xml_Unmarshal (bytes doc_truncated) Response_zero) <> Response_zero
  /\ fst (result (Verify doc_truncated_base64 "idp-a" (Some idp_certificate)
                    acs (seconds_after T0 60)) [])
     = Response_zero.
Proof.
  split; [vm_compute; discriminate|].
  apply (Verify_error_zero_Response
           doc_truncated_base64 "idp-a" (Some idp_certificate) acs
           (seconds_after T0 60) []).
  vm_compute. discriminate.
Defined.

(** C7, as the claim has it, fails on two documents that decode and
    unmarshal without error.  The first is signed and has no Assertion
    element: the signature is checked and the error is ErrInvalidIssuer.
    The second is a root element and nothing else: the error is
    ErrResponseNotSigned.  Neither is an error of xml.Unmarshal. *)
Lemma Verify_missing_elements_no_parse_error :
  (decodes_to doc_no_assertion_base64 (bytes doc_no_assertion)
   /\ unmarshals_to (bytes doc_no_assertion) response_no_assertion
   /\ Response_Assertion response_no_assertion = Assertion_zero
   /\ Verify doc_no_assertion_base64 "idp-a" (Some idp_certificate) acs
              (seconds_after T0 60) []
      = (Response_zero, Some ErrInvalidIssuer,
         [EvBase64Decode doc_no_assertion_base64;
          EvXMLUnmarshal (bytes doc_no_assertion);
          EvSignatureVerify (Response_Signature response_no_assertion)
            (Some idp_certificate)
            (xml.NewDecoder (bytes doc_no_assertion))]))
  /\
  (decodes_to doc_unsigned_base64 (bytes doc_unsigned)
   /\ unmarshals_to (bytes doc_unsigned) response_unsigned
   /\ Response_Signature response_unsigned = Signature_zero
   /\ Response_Assertion response_unsigned = Assertion_zero
   /\ result (Verify doc_unsigned_base64 "idp-a" (Some idp_certificate) acs
                (seconds_after T0 60)) []
      = (Response_zero, Some ErrResponseNotSigned))
  /\
  ~ (forall s data response,
       decodes_to s data ->
       unmarshals_to data response ->
       Response_Assertion response = Assertion_zero ->
       exists msg,
         snd (result (Verify s "idp-a" (Some idp_certificate) acs
                        (seconds_after T0 60)) [])
         = Some (XMLError msg)).
Proof.
  repeat split; try (vm_compute; reflexivity).
  intros H.
  destruct (H doc_no_assertion_base64 (bytes doc_no_assertion)
              response_no_assertion) as [msg Hmsg];
    try (vm_compute; reflexivity).
  vm_compute in Hmsg. discriminate Hmsg.
Qed.

(** C7 as amended, on the document cut off after the start tag. *)
Lemma Verify_unmarshal_error_witness :
  result (Verify doc_truncated_base64 "idp-a" (Some idp_certificate) acs
            (seconds_after T0 60)) []
  = (Response_zero,
     Some (XMLError "XML syntax error on line 1: unexpected EOF"))
  /\ signature_checks
       (trace (Verify doc_truncated_base64 "idp-a" (Some idp_certificate)
                 acs (seconds_after T0 60)) [])
     = [].
Proof.
  apply (Verify_unmarshal_error
           doc_truncated_base64 "idp-a" (Some idp_certificate) acs
           (seconds_after T0 60) (bytes doc_truncated) response_unsigned
           "XML syntax error on line 1: unexpected EOF" []).
  - vm_compute. reflexivity.
  - vm_compute. reflexivity.
Defined.

(** C6, on metadata with a POST binding only, and on metadata whose
    second and third entries are HTTP-Redirect bindings. *)
Lemma extractor_binding_selection_witness :
  result (GetEntityIDCertificateAndRedirectURL metadata_post_only) []
  = (EmptyString, None, None, Some ErrNoRedirectBinding)
  /\ result (GetEntityIDCertificateAndRedirectURL metadata_idp_a) []
     = ("idp-a", Some idp_certificate, Some "https://idp.example/sso", None).
Proof.
  assert (Hpost : decodes_to (certificateValue metadata_post_only)
                             idp_certificate)
    by (vm_compute; reflexivity).
  assert (Hidp : decodes_to (certificateValue metadata_idp_a)
                            idp_certificate)
    by (vm_compute; reflexivity).
  assert (Hcert : x509_ParseCertificate idp_certificate
                  = (Some idp_certificate, None))
    by (vm_compute; reflexivity).
  split.
  - apply (proj1 (extractor_binding_selection
                    metadata_post_only idp_certificate
                    (Some idp_certificate) [] Hpost Hcert)).
    repeat constructor. vm_compute. discriminate.
  - apply (proj2 (extractor_binding_selection
                    metadata_idp_a idp_certificate
                    (Some idp_certificate) [] Hidp Hcert)
             [service HTTPPost "https://idp.example/post"]
             (service SingleSignOnServiceBindingHTTPRedirect
                "https://idp.example/sso")
             [service SingleSignOnServiceBindingHTTPRedirect
                "https://idp.example/alt"]).
    + reflexivity.
    + repeat constructor. vm_compute. discriminate.
    + reflexivity.
Defined.

(** C8, on metadata whose certificate is not base64, and on metadata whose
    certificate is not DER; neither has an HTTP-Redirect binding. *)
Lemma extractor_certificate_before_binding_witness :
  Forall other_binding (services metadata_bad_base64)
  /\ result (GetEntityIDCertificateAndRedirectURL metadata_bad_base64) []
     = (EmptyString, None, None, Some (Base64Error "illegal base64 data"))
  /\ result (GetEntityIDCertificateAndRedirectURL metadata_bad_der) []
     = (EmptyString, None, None,
        Some (X509Error "asn1: structure error: tags don't match")).
Proof.
  split; [repeat constructor; vm_compute; discriminate|].
  split.
  - apply (proj1 (extractor_certificate_before_binding
                    metadata_bad_base64 [])
             [] "illegal base64 data").
    vm_compute. reflexivity.
  - apply (proj2 (extractor_certificate_before_binding
                    metadata_bad_der [])
             [x00; x00; x00] None
             "asn1: structure error: tags don't match").
    + vm_compute. reflexivity.
    + vm_compute. reflexivity.
Defined.

(** C10, on metadata whose HTTP-Redirect location has no scheme. *)
Lemma extractor_url_error_keeps_values_witness :
  result (GetEntityIDCertificateAndRedirectURL metadata_bad_url) []
  = ("idp-a", Some idp_certificate, None,
     Some (URLError "parse: missing protocol scheme")).
Proof.
  refine (proj1 (extractor_url_error_keeps_values
           metadata_bad_url idp_certificate (Some idp_certificate)
           [service HTTPPost "https://idp.example/post"]
           (service SingleSignOnServiceBindingHTTPRedirect
              "://idp.example/sso")
           [] None "parse: missing protocol scheme" [] _ _ _ _ _ _)).
  - vm_compute. reflexivity.
  - vm_compute. reflexivity.
  - reflexivity.
  - repeat constructor. vm_compute. discriminate.
  - reflexivity.
  - vm_compute. reflexivity.
Defined.

(** * Further properties of [Verify] *)

(** ** The order of instants *)

Lemma Before_lt (t u : time.Time) :
  time.Before t u = true <-> instant.lt t u.
Proof.
  unfold time.Before, instant.lt.
  rewrite orb_true_iff, andb_true_iff, !Z.ltb_lt, Z.eqb_eq. reflexivity.
Qed.

Lemma After_lt (t u : time.Time) :
  time.After t u = true <-> instant.lt u t.
Proof.
  unfold time.After, instant.lt.
  rewrite orb_true_iff, andb_true_iff, !Z.gtb_ltb, !Z.ltb_lt, Z.eqb_eq.
  intuition lia.
Qed.

Lemma Before_le (t u : time.Time) :
  time.Before t u = false <-> instant.le u t.
Proof.
  unfold instant.le. rewrite <- Before_lt.
  destruct (time.Before t u); intuition congruence.
Qed.

Lemma After_le (t u : time.Time) :
  time.After t u = false <-> instant.le t u.
Proof.
  unfold instant.le. rewrite <- After_lt.
  destruct (time.After t u); intuition congruence.
Qed.

Lemma le_trans (t u v : time.Time) :
  instant.le t u -> instant.le u v -> instant.le t v.
Proof. unfold instant.le, instant.lt. lia. Qed.

Lemma lt_le_trans (t u v : time.Time) :
  instant.lt t u -> instant.le u v -> instant.lt t v.
Proof. unfold instant.le, instant.lt. lia. Qed.

Lemma le_or_lt (t u : time.Time) : instant.le t u \/ instant.lt u t.
Proof. unfold instant.le, instant.lt. lia. Qed.

Section VerifyOutcomes.

Context {E : External} {L : Libraries}.

Ltac open_Verify :=
  unfold result, trace, Verify, bind, ret,
    base64_StdEncoding_DecodeString, xml_Unmarshal_into,
    Signature_Verify_with, call.

(** An accepted input went through every step. *)
Lemma Verify_accepted_inv s issuer cert recipient now t r t' :
  Verify s issuer cert recipient now t = (r, None, t') ->
  exists data,
    authentic s cert data r
    /\ issuerOf r = issuer
    /\ SubjectConfirmationData_Recipient (confirmationData r) = recipient
    /\ time.Before now (Conditions_NotBefore (conditions r)) = false
    /\ time.After now (Conditions_NotOnOrAfter (conditions r)) = false
    /\ time.After now
         (SubjectConfirmationData_NotOnOrAfter (confirmationData r)) = false
    /\ t' = t ++ [EvBase64Decode s] ++ [EvXMLUnmarshal data]
              ++ [EvSignatureVerify (Response_Signature r) cert
                    (xml.NewDecoder data)].
Proof.
  open_Verify.
  destruct (base64_DecodeString s) as [data [e|]] eqn:Hdec;
    cbn; [discriminate|].
  destruct (xml_Unmarshal data Response_zero) as [response [e|]] eqn:Hxml;
    cbn; [discriminate|].
  destruct (SignatureValue (Response_Signature response) =? EmptyString)
    eqn:Hsig; [discriminate|].
  destruct (Signature_Verify (Response_Signature response) cert
              (xml.NewDecoder data)) as [e|] eqn:Hver;
    cbn; [discriminate|].
  repeat (match goal with
          | |- context [if ?c then _ else _] => destruct c eqn:?
          end; cbn; try discriminate).
  intros H. injection H as <- <-.
  exists data. unfold authentic, decodes_to, unmarshals_to,
    issuerOf, confirmationData, conditions.
  apply String.eqb_neq in Hsig.
  repeat match goal with
         | H : negb _ = false |- _ => apply negb_false_iff in H
         | H : (_ =? _) = true |- _ => apply String.eqb_eq in H
         end.
  rewrite <- !app_assoc. repeat split; assumption.
Qed.

Lemma Verify_accepted_result_inv s issuer cert recipient now t r :
  result (Verify s issuer cert recipient now) t = (r, None) ->
  exists data,
    authentic s cert data r
    /\ issuerOf r = issuer
    /\ SubjectConfirmationData_Recipient (confirmationData r) = recipient
    /\ instant.le (Conditions_NotBefore (conditions r)) now
    /\ instant.le now (Conditions_NotOnOrAfter (conditions r))
    /\ instant.le now
         (SubjectConfirmationData_NotOnOrAfter (confirmationData r)).
Proof.
  unfold result.
  destruct (Verify s issuer cert recipient now t) as [[r' e] t'] eqn:HV.
  cbn. intros H. injection H as -> ->.
  destruct (Verify_accepted_inv _ _ _ _ _ _ _ _ HV)
    as (data & Hauth & Hi & Hr & Hnb & Hna & Hcna & _).
  exists data. rewrite <- Before_le, <- !After_le.
  split; [exact Hauth|]. repeat split; assumption.
Qed.

(** The three comparisons of instants as a closed interval. *)
Lemma Verify_interval s issuer cert recipient now data response t :
  authentic s cert data response ->
  issuerOf response = issuer ->
  SubjectConfirmationData_Recipient (confirmationData response) = recipient ->
  (instant.le (Conditions_NotBefore (conditions response)) now
   /\ instant.le now (Conditions_NotOnOrAfter (conditions response))
   /\ instant.le now
        (SubjectConfirmationData_NotOnOrAfter (confirmationData response)) ->
   result (Verify s issuer cert recipient now) t = (response, None))
  /\
  (instant.lt now (Conditions_NotBefore (conditions response))
   \/ instant.lt (Conditions_NotOnOrAfter (conditions response)) now
   \/ instant.lt
        (SubjectConfirmationData_NotOnOrAfter (confirmationData response))
        now ->
   result (Verify s issuer cert recipient now) t
   = (Response_zero, Some ErrAssertionExpired)).
Proof.
  intros Hauth Hi Hr.
  rewrite (Verify_window s issuer cert recipient data response Hauth Hi Hr).
  rewrite <- Before_le, <- !After_le, <- Before_lt, <- !After_lt.
  destruct (time.Before _ _), (time.After _ _), (time.After _ _); cbn;
    split; intros H; try reflexivity; intuition congruence.
Qed.

End VerifyOutcomes.

Section VerifyFurther.

Context {E : External} {L : Libraries}.

Ltac open_Verify :=
  unfold result, trace, Verify, bind, ret,
    base64_StdEncoding_DecodeString, xml_Unmarshal_into,
    Signature_Verify_with, call.

(** X1. An input that is not base64 gets the error of the decoder with
    the zero Response, and nothing is done with it after that: the
    decoding is the only library call. *)
Theorem Verify_decode_error s issuer cert recipient now partial msg t :
  base64_DecodeString s = (partial, Some msg) ->
  result (Verify s issuer cert recipient now) t
  = (Response_zero, Some (Base64Error msg))
  /\ trace (Verify s issuer cert recipient now) t = t ++ [EvBase64Decode s].
Proof.
  intros Hdec. open_Verify. rewrite Hdec. cbn. split; reflexivity.
Qed.

(** X2. A Response returned without error is the one the decoded input
    unmarshals to; it carries a signature value that Signature.Verify
    accepted for the given certificate over the decoded bytes; its issuer
    and recipient are the expected ones; [now] is not before NotBefore and
    not after either NotOnOrAfter; and the library calls made are the
    decoding, the unmarshalling and one signature check, in that order. *)
Theorem Verify_accepts_only_verified s issuer cert recipient now t r :
  result (Verify s issuer cert recipient now) t = (r, None) ->
  exists data,
    decodes_to s data
    /\ unmarshals_to data r
    /\ SignatureValue (Response_Signature r) <> EmptyString
    /\ Signature_Verify (Response_Signature r) cert (xml.NewDecoder data)
       = None
    /\ issuerOf r = issuer
    /\ SubjectConfirmationData_Recipient (confirmationData r) = recipient
    /\ instant.le (Conditions_NotBefore (conditions r)) now
    /\ instant.le now (Conditions_NotOnOrAfter (conditions r))
    /\ instant.le now
         (SubjectConfirmationData_NotOnOrAfter (confirmationData r))
    /\ trace (Verify s issuer cert recipient now) t
       = t ++ [EvBase64Decode s; EvXMLUnmarshal data;
               EvSignatureVerify (Response_Signature r) cert
                 (xml.NewDecoder data)].
Proof.
  unfold result, trace.
  destruct (Verify s issuer cert recipient now t) as [[r' e] t'] eqn:HV.
  cbn. intros H. injection H as -> ->.
  destruct (Verify_accepted_inv _ _ _ _ _ _ _ _ HV)
    as (data & (Hdec & Hxml & Hsig & Hver) & Hi & Hr & Hnb & Hna & Hcna
        & Ht).
  exists data. rewrite <- Before_le, <- !After_le.
  repeat split; assumption.
Qed.

(** X3. For an authentic response with the expected issuer and recipient,
    the instants at which [Verify] accepts are those of the closed
    interval from NotBefore to the earlier NotOnOrAfter, both ends
    included; at every other instant the error is ErrAssertionExpired. *)
Theorem Verify_validity_interval
    s issuer cert recipient now data response t :
  authentic s cert data response ->
  issuerOf response = issuer ->
  SubjectConfirmationData_Recipient (confirmationData response) = recipient ->
  (result (Verify s issuer cert recipient now) t = (response, None)
   <-> instant.le (Conditions_NotBefore (conditions response)) now
       /\ instant.le now (Conditions_NotOnOrAfter (conditions response))
       /\ instant.le now
            (SubjectConfirmationData_NotOnOrAfter
               (confirmationData response)))
  /\ (result (Verify s issuer cert recipient now) t = (response, None)
      \/ result (Verify s issuer cert recipient now) t
         = (Response_zero, Some ErrAssertionExpired)).
Proof.
  intros Hauth Hi Hr.
  destruct (Verify_interval s issuer cert recipient now data response t
              Hauth Hi Hr) as [Hin Hout].
  assert (Hcases :
            (instant.le (Conditions_NotBefore (conditions response)) now
             /\ instant.le now (Conditions_NotOnOrAfter (conditions response))
             /\ instant.le now
                  (SubjectConfirmationData_NotOnOrAfter
                     (confirmationData response)))
            \/ (instant.lt now (Conditions_NotBefore (conditions response))
                \/ instant.lt (Conditions_NotOnOrAfter (conditions response))
                     now
                \/ instant.lt
                     (SubjectConfirmationData_NotOnOrAfter
                        (confirmationData response)) now)).
  { destruct (le_or_lt (Conditions_NotBefore (conditions response)) now);
      destruct (le_or_lt now (Conditions_NotOnOrAfter (conditions response)));
      destruct (le_or_lt now
                  (SubjectConfirmationData_NotOnOrAfter
                     (confirmationData response)));
      tauto. }
  destruct Hcases as [Hyes|Hno].
  - rewrite (Hin Hyes). split; [tauto | left; reflexivity].
  - rewrite (Hout Hno). split; [|right; reflexivity].
    split; [discriminate|].
    unfold instant.le. tauto.
Qed.

(** X4. After the signature, the issuer is compared first and the
    recipient second: another issuer gives ErrInvalidIssuer whatever the
    recipient and the time; with the expected issuer, another recipient
    gives ErrInvalidRecipient whatever the time. *)
Theorem Verify_issuer_then_recipient
    s issuer cert recipient now data response t :
  authentic s cert data response ->
  (issuerOf response <> issuer ->
   result (Verify s issuer cert recipient now) t
   = (Response_zero, Some ErrInvalidIssuer))
  /\
  (issuerOf response = issuer ->
   SubjectConfirmationData_Recipient (confirmationData response)
   <> recipient ->
   result (Verify s issuer cert recipient now) t
   = (Response_zero, Some ErrInvalidRecipient)).
Proof.
  intros Hauth.
  rewrite (Verify_authentic s issuer cert recipient now data response t
             Hauth).
  split.
  - intros Hi. apply String.eqb_neq in Hi. rewrite Hi. reflexivity.
  - intros Hi Hr. apply String.eqb_eq in Hi. apply String.eqb_neq in Hr.
    rewrite Hi, Hr. reflexivity.
Qed.

(** X5. The instants at which an input is accepted form an interval: an
    input accepted at [a] and at [b] is accepted, with the same Response,
    at every instant from [a] to [b]. *)
Theorem Verify_accepts_between s issuer cert recipient a b c ta tb tc r :
  result (Verify s issuer cert recipient a) ta = (r, None) ->
  snd (result (Verify s issuer cert recipient b) tb) = None ->
  instant.le a c ->
  instant.le c b ->
  result (Verify s issuer cert recipient c) tc = (r, None).
Proof.
  intros Ha Hb Hac Hcb.
  destruct (Verify_accepted_result_inv _ _ _ _ _ _ _ Ha)
    as (data & Hauth & Hi & Hr & Hnb & _ & _).
  destruct (result (Verify s issuer cert recipient b) tb) as [r' e] eqn:HVb.
  cbn in Hb. subst e.
  destruct (Verify_accepted_result_inv _ _ _ _ _ _ _ HVb)
    as (data' & Hauth' & _ & _ & _ & Hna & Hcna).
  assert (r' = r) as ->.
  { destruct Hauth as (Hd & Hx & _), Hauth' as (Hd' & Hx' & _).
    unfold decodes_to, unmarshals_to in *. congruence. }
  apply (Verify_interval s issuer cert recipient c data r tc Hauth Hi Hr).
  repeat split; eauto using le_trans.
Qed.

(** X6. Expiry is for good: when an input that was accepted at [a] is
    refused at a later instant [b], it is refused with ErrAssertionExpired
    at every instant from [b] on. *)
Theorem Verify_expired_for_good s issuer cert recipient a b c ta tb tc r :
  result (Verify s issuer cert recipient a) ta = (r, None) ->
  snd (result (Verify s issuer cert recipient b) tb) <> None ->
  instant.le a b ->
  instant.le b c ->
  result (Verify s issuer cert recipient c) tc
  = (Response_zero, Some ErrAssertionExpired).
Proof.
  intros Ha Hb Hab Hbc.
  destruct (Verify_accepted_result_inv _ _ _ _ _ _ _ Ha)
    as (data & Hauth & Hi & Hr & Hnb & _ & _).
  destruct (Verify_interval s issuer cert recipient b data r tb Hauth Hi Hr)
    as [Hin _].
  apply (Verify_interval s issuer cert recipient c data r tc Hauth Hi Hr).
  destruct (le_or_lt b (Conditions_NotOnOrAfter (conditions r)))
    as [Hna|Hna];
    [|right; left; exact (lt_le_trans _ _ _ Hna Hbc)].
  destruct (le_or_lt b
              (SubjectConfirmationData_NotOnOrAfter (confirmationData r)))
    as [Hcna|Hcna];
    [|right; right; exact (lt_le_trans _ _ _ Hcna Hbc)].
  exfalso. apply Hb. rewrite Hin; [reflexivity|].
  repeat split; eauto using le_trans.
Qed.

(** X7. A response that has no NotOnOrAfter instant, in its Conditions or
    in its SubjectConfirmationData, so that the field is the zero instant,
    is refused at every instant after the zero instant. *)
Theorem Verify_missing_NotOnOrAfter
    s issuer cert recipient now data response t :
  decodes_to s data ->
  unmarshals_to data response ->
  Conditions_NotOnOrAfter (conditions response) = time.zero
  \/ SubjectConfirmationData_NotOnOrAfter (confirmationData response)
     = time.zero ->
  instant.lt time.zero now ->
  snd (result (Verify s issuer cert recipient now) t) <> None.
Proof.
  intros Hdec Hxml Hzero Hnow Hnone.
  destruct (result (Verify s issuer cert recipient now) t) as [r e] eqn:HV.
  cbn in Hnone. subst e.
  destruct (Verify_accepted_result_inv _ _ _ _ _ _ _ HV)
    as (data' & (Hd & Hx & _) & _ & _ & _ & Hna & Hcna).
  assert (r = response) as ->.
  { unfold decodes_to, unmarshals_to in *. congruence. }
  destruct Hzero as [Hz|Hz]; rewrite Hz in *; [apply Hna | apply Hcna];
    exact Hnow.
Qed.


End VerifyFurther.

(** * Further properties of the extractor *)
Section ExtractorFurther.

Context {E : External} {L : Libraries}.

(** The loop is a search for the first HTTP-Redirect entry. *)
Lemma range_find d cert l t :
  range_SingleSignOnServices d cert l t
  = match find isRedirect l with
    | Some s =>
        (EntityID d, cert, fst (url_Parse (Location s)),
         wrap URLError (snd (url_Parse (Location s))),
         t ++ [EvURLParse (Location s)])
    | None => (EmptyString, None, None, Some ErrNoRedirectBinding, t)
    end.
Proof.
  induction l as [|s l IH]; [reflexivity|].
  cbn. unfold isRedirect at 1.
  destruct (Binding s =? SingleSignOnServiceBindingHTTPRedirect);
    [|exact IH].
  unfold bind, url_Parse_of, call, ret.
  destruct (url_Parse (Location s)) as [u e]. reflexivity.
Qed.

(** The extractor, stage by stage. *)
Lemma extractor_stages d t :
  GetEntityIDCertificateAndRedirectURL d t
  = let decoded := base64_DecodeString (certificateValue d) in
    match snd decoded with
    | Some msg =>
        (EmptyString, None, None, Some (Base64Error msg),
         t ++ [EvBase64Decode (certificateValue d)])
    | None =>
        let parsed := x509_ParseCertificate (fst decoded) in
        match snd parsed with
        | Some msg =>
            (EmptyString, None, None, Some (X509Error msg),
             t ++ [EvBase64Decode (certificateValue d);
                   EvX509Parse (fst decoded)])
        | None =>
            range_SingleSignOnServices d (fst parsed) (services d)
              (t ++ [EvBase64Decode (certificateValue d);
                     EvX509Parse (fst decoded)])
        end
    end.
Proof.
  unfold GetEntityIDCertificateAndRedirectURL, bind, ret,
    base64_StdEncoding_DecodeString, x509_ParseCertificate_of, call,
    certificateValue, services.
  destruct (base64_DecodeString _) as [asn1Data [e|]]; cbn;
    [reflexivity|].
  destruct (x509_ParseCertificate asn1Data) as [cert [e|]]; cbn;
    rewrite <- app_assoc; reflexivity.
Qed.

(** X9. The outcome of the extractor depends on the descriptor through
    three things only: the EntityID, the certificate value and the
    Location of the first HTTP-Redirect entry.  Entries with other
    bindings, and everything after the first HTTP-Redirect entry, make no
    difference. *)
Theorem extractor_first_redirect_only d d' t :
  EntityID d = EntityID d' ->
  certificateValue d = certificateValue d' ->
  option_map Location (firstRedirect d)
  = option_map Location (firstRedirect d') ->
  GetEntityIDCertificateAndRedirectURL d t
  = GetEntityIDCertificateAndRedirectURL d' t.
Proof.
  intros Hid Hcert Hfirst. rewrite !extractor_stages, <- Hcert. cbn zeta.
  destruct (snd (base64_DecodeString (certificateValue d)));
    [reflexivity|].
  destruct (snd (x509_ParseCertificate _)); [reflexivity|].
  rewrite !range_find, <- Hid. unfold firstRedirect in Hfirst.
  destruct (find isRedirect (services d)) as [s|],
           (find isRedirect (services d')) as [s'|];
    cbn in Hfirst; try discriminate; [|reflexivity].
  injection Hfirst as ->. reflexivity.
Qed.

(** X10. When the extractor returns no error, the certificate value
    decoded, the decoded bytes parsed to the certificate returned, the
    descriptor has an HTTP-Redirect entry, the URL returned is what
    url.Parse gives without error for the Location of the first of them,
    and the identifier returned is the EntityID. *)
Theorem extractor_success_inv d t id cert location :
  result (GetEntityIDCertificateAndRedirectURL d) t
  = (id, cert, location, None) ->
  exists asn1Data s,
    decodes_to (certificateValue d) asn1Data
    /\ x509_ParseCertificate asn1Data = (cert, None)
    /\ firstRedirect d = Some s
    /\ url_Parse (Location s) = (location, None)
    /\ id = EntityID d.
Proof.
  unfold result, decodes_to, firstRedirect.
  rewrite extractor_stages. cbn zeta.
  destruct (base64_DecodeString (certificateValue d))
    as [asn1Data [e|]] eqn:Hdec; cbn; [discriminate|].
  destruct (x509_ParseCertificate asn1Data) as [cert' [e|]] eqn:Hcert;
    cbn; [discriminate|].
  rewrite range_find.
  destruct (find isRedirect (services d)) as [s|] eqn:Hfind; cbn;
    [|discriminate].
  destruct (url_Parse (Location s)) as [u [e|]] eqn:Hurl; cbn;
    [discriminate|].
  intros H. injection H as <- <- <-.
  exists asn1Data, s. repeat split; reflexivity || assumption.
Qed.

(** X11. The extractor calls the libraries in one order and each at most
    once: the decoding of the certificate value, the parsing of the
    decoded bytes, and url.Parse on the Location of the first
    HTTP-Redirect entry; no other Location is parsed. *)
Theorem extractor_calls d t :
  let asn1Data := fst (base64_DecodeString (certificateValue d)) in
  trace (GetEntityIDCertificateAndRedirectURL d) t
  = t ++ [EvBase64Decode (certificateValue d)]
  \/ trace (GetEntityIDCertificateAndRedirectURL d) t
     = t ++ [EvBase64Decode (certificateValue d); EvX509Parse asn1Data]
  \/ exists s,
       firstRedirect d = Some s
       /\ trace (GetEntityIDCertificateAndRedirectURL d) t
          = t ++ [EvBase64Decode (certificateValue d);
                  EvX509Parse asn1Data; EvURLParse (Location s)].
Proof.
  unfold trace, firstRedirect. rewrite extractor_stages. cbn zeta.
  destruct (snd (base64_DecodeString (certificateValue d)));
    [left; reflexivity|].
  destruct (snd (x509_ParseCertificate _));
    [right; left; reflexivity|].
  rewrite range_find.
  destruct (find isRedirect (services d)) as [s|].
  - right; right. exists s. cbn. rewrite <- app_assoc.
    split; reflexivity.
  - right; left. reflexivity.
Qed.

(** X12. An error of the extractor comes with empty values, unless it is
    the error of url.Parse: that one comes with the EntityID and the
    certificate. *)
Theorem extractor_error_values d t id cert location e :
  result (GetEntityIDCertificateAndRedirectURL d) t
  = (id, cert, location, Some e) ->
  (id = EmptyString /\ cert = None /\ location = None
   /\ forall msg, e <> URLError msg)
  \/ (exists msg,
        e = URLError msg /\ id = EntityID d
        /\ cert = fst (x509_ParseCertificate
                         (fst (base64_DecodeString (certificateValue d))))).
Proof.
  unfold result. rewrite extractor_stages. cbn zeta.
  destruct (snd (base64_DecodeString (certificateValue d))); cbn.
  { intros H. injection H as <- <- <- <-. left.
    repeat split; discriminate. }
  destruct (snd (x509_ParseCertificate _)); cbn.
  { intros H. injection H as <- <- <- <-. left.
    repeat split; discriminate. }
  rewrite range_find.
  destruct (find isRedirect (services d)) as [s|]; cbn.
  - destruct (snd (url_Parse (Location s))) as [msg|]; cbn;
      [|discriminate].
    intros H. injection H as <- <- <- <-. right.
    exists msg. repeat split; reflexivity.
  - intros H. injection H as <- <- <- <-. left.
    repeat split; discriminate.
Qed.

(** X13. The two operations together: when the values the extractor
    returns for a descriptor are handed to [Verify] and [Verify] accepts
    an input, the issuer of the Response is the EntityID of the
    descriptor, and the signature was accepted for the certificate parsed
    from the certificate value of the descriptor. *)
Theorem extractor_then_Verify
    d t issuer cert location s recipient now t' r :
  result (GetEntityIDCertificateAndRedirectURL d) t
  = (issuer, cert, location, None) ->
  result (Verify s issuer cert recipient now) t' = (r, None) ->
  issuerOf r = EntityID d
  /\ exists asn1Data data,
       decodes_to (certificateValue d) asn1Data
       /\ x509_ParseCertificate asn1Data = (cert, None)
       /\ decodes_to s data
       /\ Signature_Verify (Response_Signature r) cert (xml.NewDecoder data)
          = None.
Proof.
  intros Hd Hv.
  destruct (Verify_accepted_result_inv _ _ _ _ _ _ _ Hv)
    as (data & (Hdec & _ & _ & Hver) & Hi & _).
  unfold result in Hd. rewrite extractor_stages in Hd. cbn zeta in Hd.
  unfold decodes_to.
  destruct (base64_DecodeString (certificateValue d)) as [asn1Data [e|]];
    cbn in Hd; [discriminate|].
  destruct (x509_ParseCertificate asn1Data) as [cert' [e|]] eqn:Hcert;
    cbn in Hd; [discriminate|].
  rewrite range_find in Hd.
  destruct (find isRedirect (services d)) as [s0|]; cbn in Hd;
    [|discriminate].
  injection Hd as <- <- _ _.
  split; [exact Hi|].
  exists asn1Data, data. repeat split; assumption.
Qed.

End ExtractorFurther.

(** * The hello-world service *)
Section HelloWorld.

Context {E : External} {L : Libraries} {D : hello_world.MetadataDecoder}.



(** X16. After a /setup that went through, whatever /acs encodes is an
    assertion issued by the entity of the uploaded metadata: its issuer
    is the EntityID of the metadata, and the response it came in was
    signed for the certificate parsed from the certificate value of the
    metadata. *)
Theorem setup_then_acs
    (upload login : hello_world.Request) (now : time.Time)
    (vars vars' : hello_world.Vars) (t t' : Trace)
    (assertion : Assertion) (relay_state : string) :
  result (hello_world.setup upload vars) t = ([], vars') ->
  In (hello_world.Encode assertion relay_state)
     (result (hello_world.acs login now vars') t') ->
  exists metadata asn1Data data response,
    hello_world.xml_Decode (hello_world.Body upload)
      hello_world.EntityDescriptor_zero = (metadata, None)
    /\ decodes_to (certificateValue metadata) asn1Data
    /\ x509_ParseCertificate asn1Data = (hello_world.cert vars', None)
    /\ decodes_to (hello_world.FormValue login "SAMLResponse") data
    /\ unmarshals_to data response
    /\ Signature_Verify (Response_Signature response)
         (hello_world.cert vars') (xml.NewDecoder data) = None
    /\ assertion = Response_Assertion response
    /\ Issuer_Name (Assertion_Issuer assertion) = EntityID metadata.
Proof.
  intros Hsetup Hacs.
  unfold result, hello_world.setup, bind, ret in Hsetup.
  destruct (hello_world.xml_Decode _ _) as [metadata [msg|]] eqn:Hdec;
    [discriminate|].
  destruct (GetEntityIDCertificateAndRedirectURL metadata t)
    as [[[[id c] u] [e|]] t1] eqn:Hget; cbn in Hsetup; [discriminate|].
  injection Hsetup as <-.
  rewrite extractor_stages in Hget. cbn zeta in Hget.
  destruct (base64_DecodeString (certificateValue metadata))
    as [asn1Data [e|]] eqn:Hcv; cbn in Hget; [discriminate|].
  destruct (x509_ParseCertificate asn1Data) as [c' [e|]] eqn:Hcert;
    cbn in Hget; [discriminate|].
  rewrite range_find in Hget.
  destruct (find isRedirect (services metadata)) as [s|]; cbn in Hget;
    [|discriminate].
  injection Hget as <- <- _ _ _.
  unfold result, hello_world.acs, bind, ret in Hacs. cbn in Hacs.
  destruct (hello_world.ParseForm login) as [msg|].
  { cbn in Hacs. destruct Hacs as [H|[H|[]]]; discriminate. }
  destruct (Verify _ _ _ _ now t') as [[response [e|]] t2] eqn:HV;
    cbn in Hacs.
  { destruct Hacs as [H|[H|[]]]; discriminate. }
  destruct Hacs as [H|[H|[]]]; [discriminate|].
  injection H as <- _.
  destruct (Verify_accepted_inv _ _ _ _ _ _ _ _ HV)
    as (data & (Hd & Hx & _ & Hver) & Hi & _).
  exists metadata, asn1Data, data, response.
  repeat split; assumption.
Qed.

End HelloWorld.

(** * The further properties on the reference documents *)

(** X1, on an input with characters outside the alphabet. *)
Lemma Verify_decode_error_witness :
  result (Verify "<Response/>" "idp-a" (Some idp_certificate) acs T0) []
  = (Response_zero, Some (Base64Error "illegal base64 data"))
  /\ trace (Verify "<Response/>" "idp-a" (Some idp_certificate) acs T0) []
     = [] ++ [EvBase64Decode "<Response/>"].
Proof.
  apply (Verify_decode_error "<Response/>" "idp-a" (Some idp_certificate)
           acs T0 [] "illegal base64 data" []).
  vm_compute. reflexivity.
Defined.

Lemma doc_signed_accepted :
  result (Verify doc_signed_base64 "idp-a" (Some idp_certificate) acs
            (seconds_after T0 60)) []
  = (response_signed, None).
Proof. vm_compute. reflexivity. Defined.

(** X2, on the signed document one minute into its window. *)
Lemma Verify_accepts_only_verified_witness :
  exists data,
    decodes_to doc_signed_base64 data
    /\ unmarshals_to data response_signed
    /\ SignatureValue (Response_Signature response_signed) <> EmptyString
    /\ Signature_Verify (Response_Signature response_signed)
         (Some idp_certificate) (xml.NewDecoder data) = None
    /\ issuerOf response_signed = "idp-a"
    /\ SubjectConfirmationData_Recipient (confirmationData response_signed)
       = acs
    /\ instant.le (Conditions_NotBefore (conditions response_signed))
         (seconds_after T0 60)
    /\ instant.le (seconds_after T0 60)
         (Conditions_NotOnOrAfter (conditions response_signed))
    /\ instant.le (seconds_after T0 60)
         (SubjectConfirmationData_NotOnOrAfter
            (confirmationData response_signed))
    /\ trace (Verify doc_signed_base64 "idp-a" (Some idp_certificate) acs
                (seconds_after T0 60)) []
       = [] ++ [EvBase64Decode doc_signed_base64; EvXMLUnmarshal data;
                EvSignatureVerify (Response_Signature response_signed)
                  (Some idp_certificate) (xml.NewDecoder data)].
Proof.
  exact (Verify_accepts_only_verified doc_signed_base64 "idp-a"
           (Some idp_certificate) acs (seconds_after T0 60) []
           response_signed doc_signed_accepted).
Defined.

(** X3, on the signed document at the last instant of its window. *)
Lemma Verify_validity_interval_witness :
  result (Verify doc_signed_base64 "idp-a" (Some idp_certificate) acs
            (seconds_after T0 300)) []
  = (response_signed, None)
  <-> instant.le (Conditions_NotBefore (conditions response_signed))
        (seconds_after T0 300)
      /\ instant.le (seconds_after T0 300)
           (Conditions_NotOnOrAfter (conditions response_signed))
      /\ instant.le (seconds_after T0 300)
           (SubjectConfirmationData_NotOnOrAfter
              (confirmationData response_signed)).
Proof.
  exact (proj1 (Verify_validity_interval doc_signed_base64 "idp-a"
                  (Some idp_certificate) acs (seconds_after T0 300)
                  (bytes doc_signed) response_signed []
                  doc_signed_authentic eq_refl eq_refl)).
Defined.

(** X4, on the signed document, expected from another issuer and then
    at another recipient. *)
Lemma Verify_issuer_then_recipient_witness :
  result (Verify doc_signed_base64 "idp-b" (Some idp_certificate)
            "https://elsewhere.example/acs" (seconds_after T0 360)) []
  = (Response_zero, Some ErrInvalidIssuer)
  /\ result (Verify doc_signed_base64 "idp-a" (Some idp_certificate)
               "https://elsewhere.example/acs" (seconds_after T0 360)) []
     = (Response_zero, Some ErrInvalidRecipient).
Proof.
  split.
  - apply (proj1 (Verify_issuer_then_recipient doc_signed_base64 "idp-b"
                    (Some idp_certificate) "https://elsewhere.example/acs"
                    (seconds_after T0 360) (bytes doc_signed)
                    response_signed [] doc_signed_authentic)).
    vm_compute. discriminate.
  - apply (proj2 (Verify_issuer_then_recipient doc_signed_base64 "idp-a"
                    (Some idp_certificate) "https://elsewhere.example/acs"
                    (seconds_after T0 360) (bytes doc_signed)
                    response_signed [] doc_signed_authentic)).
    + reflexivity.
    + vm_compute. discriminate.
Defined.

(** X5, on the signed document: accepted at both ends of its window,
    hence two minutes in. *)
Lemma Verify_accepts_between_witness :
  result (Verify doc_signed_base64 "idp-a" (Some idp_certificate) acs
            (seconds_after T0 120)) []
  = (response_signed, None).
Proof.
  apply (Verify_accepts_between doc_signed_base64 "idp-a"
           (Some idp_certificate) acs T0 (seconds_after T0 300)
           (seconds_after T0 120) [] [] [] response_signed).
  - vm_compute. reflexivity.
  - vm_compute. reflexivity.
  - unfold instant.le, instant.lt. cbn. lia.
  - unfold instant.le, instant.lt. cbn. lia.
Defined.

(** X6, on the signed document: accepted at [T0], refused one second
    after the window, hence refused a day later. *)
Lemma Verify_expired_for_good_witness :
  result (Verify doc_signed_base64 "idp-a" (Some idp_certificate) acs
            (seconds_after T0 86400)) []
  = (Response_zero, Some ErrAssertionExpired).
Proof.
  apply (Verify_expired_for_good doc_signed_base64 "idp-a"
           (Some idp_certificate) acs T0 (seconds_after T0 301)
           (seconds_after T0 86400) [] [] [] response_signed).
  - vm_compute. reflexivity.
  - vm_compute. discriminate.
  - unfold instant.le, instant.lt. cbn. lia.
  - unfold instant.le, instant.lt. cbn. lia.
Defined.

(** X7, on the signed document without Assertion, and so without
    Conditions: refused even when the empty issuer and recipient are the
    expected ones. *)
Lemma Verify_missing_NotOnOrAfter_witness :
  snd (result (Verify doc_no_assertion_base64 EmptyString
                 (Some idp_certificate) EmptyString T0) [])
  <> None.
Proof.
  apply (Verify_missing_NotOnOrAfter doc_no_assertion_base64 EmptyString
           (Some idp_certificate) EmptyString T0 (bytes doc_no_assertion)
           response_no_assertion []).
  - vm_compute. reflexivity.
  - vm_compute. reflexivity.
  - left. reflexivity.
  - unfold instant.lt. cbn. lia.
Defined.

(** X9, on the metadata of idp-a and on the same metadata with nothing
    but its first HTTP-Redirect entry. *)
Lemma extractor_first_redirect_only_witness :
  GetEntityIDCertificateAndRedirectURL metadata_idp_a []
  = GetEntityIDCertificateAndRedirectURL
      (mkEntityDescriptor "idp-a" "MIIB"
         [service SingleSignOnServiceBindingHTTPRedirect
            "https://idp.example/sso"]) [].
Proof.
  apply (extractor_first_redirect_only metadata_idp_a
           (mkEntityDescriptor "idp-a" "MIIB"
              [service SingleSignOnServiceBindingHTTPRedirect
                 "https://idp.example/sso"]) []);
    reflexivity.
Defined.

Lemma metadata_idp_a_extracted :
  result (GetEntityIDCertificateAndRedirectURL metadata_idp_a) []
  = ("idp-a", Some idp_certificate, Some "https://idp.example/sso", None).
Proof. vm_compute. reflexivity. Defined.

(** X10, on the metadata of idp-a. *)
Lemma extractor_success_inv_witness :
  exists asn1Data s,
    decodes_to (certificateValue metadata_idp_a) asn1Data
    /\ x509_ParseCertificate asn1Data = (Some idp_certificate, None)
    /\ firstRedirect metadata_idp_a = Some s
    /\ url_Parse (Location s) = (Some "https://idp.example/sso", None)
    /\ "idp-a" = EntityID metadata_idp_a.
Proof.
  exact (extractor_success_inv metadata_idp_a [] "idp-a"
           (Some idp_certificate) (Some "https://idp.example/sso")
           metadata_idp_a_extracted).
Defined.

(** X12, on the metadata whose HTTP-Redirect location has no scheme. *)
Lemma extractor_error_values_witness :
  ("idp-a" = EmptyString /\ Some idp_certificate = None
   /\ @None URL = None
   /\ forall msg, URLError "parse: missing protocol scheme" <> URLError msg)
  \/ (exists msg,
        URLError "parse: missing protocol scheme" = URLError msg
        /\ "idp-a" = EntityID metadata_bad_url
        /\ Some idp_certificate
           = fst (x509_ParseCertificate
                    (fst (base64_DecodeString
                            (certificateValue metadata_bad_url))))).
Proof.
  apply (extractor_error_values metadata_bad_url [] "idp-a"
           (Some idp_certificate) None
           (URLError "parse: missing protocol scheme")).
  vm_compute. reflexivity.
Defined.

(** X13, on the metadata of idp-a and the signed document. *)
Lemma extractor_then_Verify_witness :
  issuerOf response_signed = EntityID metadata_idp_a.
Proof.
  exact (proj1 (extractor_then_Verify metadata_idp_a [] "idp-a"
                  (Some idp_certificate) (Some "https://idp.example/sso")
                  doc_signed_base64 acs (seconds_after T0 60) []
                  response_signed metadata_idp_a_extracted
                  doc_signed_accepted)).
Defined.

(** X16, on the metadata of idp-a uploaded to a fresh service, followed
    by a login with the response addressed to the service. *)
Lemma setup_then_acs_witness :
  exists vars,
    result (@hello_world.setup Fixture.external HelloFixture.libraries
              HelloFixture.decoder
              (HelloFixture.upload HelloFixture.metadata_doc)
              hello_world.Vars_zero) []
    = ([], vars)
    /\ result (@hello_world.acs Fixture.external HelloFixture.libraries
                 (HelloFixture.login HelloFixture.doc_local_base64 "/todos")
                 (seconds_after T0 60) vars) []
       = [hello_world.Header_Set "content-type" "application/json";
          hello_world.Encode
            (Response_Assertion HelloFixture.response_local) "/todos"]
    /\ Issuer_Name
         (Assertion_Issuer (Response_Assertion HelloFixture.response_local))
       = EntityID metadata_idp_a.
Proof.
  exists {| hello_world.issuer := "idp-a";
            hello_world.cert := Some idp_certificate;
            hello_world.redirectURL := Some "https://idp.example/sso" |}.
  assert (Hsetup :
            result (@hello_world.setup Fixture.external
                      HelloFixture.libraries HelloFixture.decoder
                      (HelloFixture.upload HelloFixture.metadata_doc)
                      hello_world.Vars_zero) []
            = ([], {| hello_world.issuer := "idp-a";
                      hello_world.cert := Some idp_certificate;
                      hello_world.redirectURL :=
                        Some "https://idp.example/sso" |}))
    by (vm_compute; reflexivity).
  assert (Hacs :
            result (@hello_world.acs Fixture.external HelloFixture.libraries
                      (HelloFixture.login HelloFixture.doc_local_base64
                         "/todos")
                      (seconds_after T0 60)
                      {| hello_world.issuer := "idp-a";
                         hello_world.cert := Some idp_certificate;
                         hello_world.redirectURL :=
                           Some "https://idp.example/sso" |}) []
            = [hello_world.Header_Set "content-type" "application/json";
               hello_world.Encode
                 (Response_Assertion HelloFixture.response_local) "/todos"])
    by (vm_compute; reflexivity).
  split; [exact Hsetup|]. split; [exact Hacs|].
  assert (Hin :
            In (hello_world.Encode
                  (Response_Assertion HelloFixture.response_local) "/todos")
               (result (@hello_world.acs Fixture.external
                          HelloFixture.libraries
                          (HelloFixture.login HelloFixture.doc_local_base64
                             "/todos")
                          (seconds_after T0 60)
                          {| hello_world.issuer := "idp-a";
                             hello_world.cert := Some idp_certificate;
                             hello_world.redirectURL :=
                               Some "https://idp.example/sso" |}) []))
    by (rewrite Hacs; right; left; reflexivity).
  destruct (@setup_then_acs Fixture.external HelloFixture.libraries
              HelloFixture.decoder
              (HelloFixture.upload HelloFixture.metadata_doc)
              (HelloFixture.login HelloFixture.doc_local_base64 "/todos")
              (seconds_after T0 60) hello_world.Vars_zero _ [] []
              (Response_Assertion HelloFixture.response_local) "/todos"
              Hsetup Hin)
    as (metadata & asn1Data & data & response & Hdec & _ & _ & _ & _ & _
        & _ & Hissuer).
  vm_compute in Hdec. injection Hdec as <-. exact Hissuer.
Defined.
